(** * Task orchestration core of codemate-hub: signal bus, task registry
    and orchestrator, embedded from [src/signals.py], [src/task_manager.py]
    and [src/orchestrator.py]. *)

From Stdlib Require Import String List ZArith Bool Lia Sorted Permutation.
Import ListNotations.
Open Scope string_scope.
Open Scope list_scope.
Set Warnings "-register-all".

(** ** Python values and effects *)

(** The Python values the core stores in results, payload data and task
    metadata.  [PFunc f] is a handle to a Python callable. *)
Inductive PyVal : Type :=
| PNone
| PInt (z : Z)
| PStr (s : string)
| PTuple (vs : list PyVal)
| PDict (kvs : list (string * PyVal))
| PFunc (f : nat).

(** Truthiness of the values the code tests with [if x:]. *)
Definition py_truthy (v : PyVal) : bool :=
  match v with
  | PNone => false
  | PInt z => negb (Z.eqb z 0)
  | PStr s => negb (String.eqb s "")
  | PTuple vs => match vs with [] => false | _ => true end
  | PDict kvs => match kvs with [] => false | _ => true end
  | PFunc _ => true
  end.

Definition py_truthy_str (o : option string) : bool :=
  match o with
  | None => false
  | Some s => negb (String.eqb s "")
  end.

(** A result or a raised Python exception (type name and [str(e)]). *)
Inductive Exc (A : Type) : Type :=
| Ok (a : A)
| Raise (ty msg : string).
Arguments Ok {A} a.
Arguments Raise {A} ty msg.

(** State threaded through a computation that may raise; a raise keeps
    the state reached so far, as Python mutations are not rolled back. *)
Definition ST (S A : Type) : Type := S -> Exc A * S.

Definition ret {S A} (a : A) : ST S A := fun s => (Ok a, s).

Definition bind {S A B} (m : ST S A) (k : A -> ST S B) : ST S B :=
  fun s =>
    match m s with
    | (Ok a, s') => k a s'
    | (Raise t e, s') => (Raise t e, s')
    end.

Definition raise {S A} (ty msg : string) : ST S A := fun s => (Raise ty msg, s).

(** [try: m except Exception as e: h] *)
Definition try_except {S A} (m : ST S A) (h : string -> string -> ST S A) : ST S A :=
  fun s =>
    match m s with
    | (Raise t e, s') => h t e s'
    | r => r
    end.

Definition gets {S A} (f : S -> A) : ST S A := fun s => (Ok (f s), s).
Definition modify {S} (f : S -> S) : ST S unit := fun s => (Ok tt, f s).

(** Run a computation on one component of a larger state. *)
Definition zoom {S T A} (getl : S -> T) (setl : T -> S -> S) (m : ST T A) : ST S A :=
  fun s => let (r, t) := m (getl s) in (r, setl t s).

Notation "x <- m ;; k" := (bind m (fun x => k))
  (at level 61, m at next level, right associativity).
Notation "m ;;; k" := (bind m (fun _ => k))
  (at level 61, right associativity).

(** Python slicing [l[i:]], with negative [i] counted from the end. *)
Definition py_slice_from {A} (i : Z) (l : list A) : list A :=
  let n := Z.of_nat (length l) in
  let start := if Z.ltb i 0 then Z.max 0 (n + i) else Z.min i n in
  skipn (Z.to_nat start) l.

(** Python dict as an association list in insertion order: [d[k] = v]
    overwrites in place or appends a new key. *)
Fixpoint dict_get {V} (k : string) (d : list (string * V)) : option V :=
  match d with
  | [] => None
  | (k', v) :: d' => if String.eqb k k' then Some v else dict_get k d'
  end.

Fixpoint dict_set {V} (k : string) (v : V) (d : list (string * V)) : list (string * V) :=
  match d with
  | [] => [(k, v)]
  | (k', v') :: d' => if String.eqb k k' then (k', v) :: d' else (k', v') :: dict_set k v d'
  end.

(** ** signals.py *)
Module Signals.

Inductive SignalType : Type :=
| TASK_STARTED | TASK_COMPLETED | TASK_FAILED | TASK_CANCELLED
| AGENT_READY | AGENT_BUSY.

Definition SignalType_eqb (a b : SignalType) : bool :=
  match a, b with
  | TASK_STARTED, TASK_STARTED | TASK_COMPLETED, TASK_COMPLETED
  | TASK_FAILED, TASK_FAILED | TASK_CANCELLED, TASK_CANCELLED
  | AGENT_READY, AGENT_READY | AGENT_BUSY, AGENT_BUSY => true
  | _, _ => false
  end.

Inductive TaskStatus : Type :=
| PENDING | RUNNING | COMPLETED | FAILED | CANCELLED.

Definition TaskStatus_eqb (a b : TaskStatus) : bool :=
  match a, b with
  | PENDING, PENDING | RUNNING, RUNNING | COMPLETED, COMPLETED
  | FAILED, FAILED | CANCELLED, CANCELLED => true
  | _, _ => false
  end.

(** [signal_id] is the uuid4 drawn at construction (a fresh number) and [timestamp] the
    [utcnow()] reading. *)
Record SignalPayload : Type := mkSignal {
  signal_id : nat;
  signal_type : SignalType;
  timestamp : nat;
  sp_task_id : string;
  sp_agent_id : option string;
  data : list (string * PyVal);
  sp_error : option string
}.

(** A callback either returns or raises an [Exception]. *)
Record Subscription : Type := mkSubscription {
  subscriber_id : string;
  signal_types : list SignalType;
  callback : SignalPayload -> Exc unit;
  task_filter : option string
}.

Record SignalEmitter : Type := mkEmitter {
  _subscribers : list Subscription;
  _signal_history : list SignalPayload;
  _max_history : Z
}.

Definition SignalEmitter_init : SignalEmitter := mkEmitter [] [] 1000.

Definition set_subscribers (l : list Subscription) (e : SignalEmitter) : SignalEmitter :=
  mkEmitter l (_signal_history e) (_max_history e).
Definition set_history (l : list SignalPayload) (e : SignalEmitter) : SignalEmitter :=
  mkEmitter (_subscribers e) l (_max_history e).

Definition type_in (t : SignalType) (ts : list SignalType) : bool :=
  existsb (SignalType_eqb t) ts.

Fixpoint find_matching_subscribers (subs : list Subscription) (signal : SignalPayload)
  : list Subscription :=
  match subs with
  | [] => []
  | sub :: rest =>
      if negb (type_in (signal_type signal) (signal_types sub))
      then find_matching_subscribers rest signal
      else if py_truthy_str (task_filter sub)
              && negb (match task_filter sub with
                       | Some f => String.eqb f (sp_task_id signal)
                       | None => false end)
      then find_matching_subscribers rest signal
      else sub :: find_matching_subscribers rest signal
  end.

(** The loop of [emit] that runs outside the lock: each callback inside
    [try ... except Exception] (the handler only logs).  The list returned
    records the invocations made, with [true] when the callback returned
    normally. *)
Fixpoint deliver (subs : list Subscription) (signal : SignalPayload)
  : Exc (list (Subscription * bool)) :=
  match subs with
  | [] => Ok []
  | subscription :: rest =>
      let outcome :=
        match callback subscription signal with
        | Ok _ => Ok true
        | Raise _ _ => (* logger.error(...) *) Ok false
        end in
      match outcome with
      | Raise t e => Raise t e
      | Ok b =>
          match deliver rest signal with
          | Raise t e => Raise t e
          | Ok l => Ok ((subscription, b) :: l)
          end
      end
  end.

Definition emit (signal : SignalPayload) : ST SignalEmitter (list (Subscription * bool)) :=
  fun self =>
    let h := _signal_history self ++ [signal] in
    let h := if Z.ltb (_max_history self) (Z.of_nat (length h))
             then py_slice_from (- _max_history self) h else h in
    let self := set_history h self in
    let matching_subscribers := find_matching_subscribers (_subscribers self) signal in
    match deliver matching_subscribers signal with
    | Ok l => (Ok l, self)
    | Raise t e => (Raise t e, self)
    end.

Definition subscribe (subscriber_id : string) (signal_types : list SignalType)
  (callback : SignalPayload -> Exc unit) (task_filter : option string)
  : ST SignalEmitter string :=
  fun self =>
    let subscription := mkSubscription subscriber_id signal_types callback task_filter in
    (Ok subscriber_id, set_subscribers (_subscribers self ++ [subscription]) self).

Definition unsubscribe (sid : string) : ST SignalEmitter bool :=
  fun self =>
    let original_count := length (_subscribers self) in
    let subs := filter (fun sub => negb (String.eqb (subscriber_id sub) sid))
                  (_subscribers self) in
    let removed := Nat.ltb (length subs) original_count in
    (Ok removed, set_subscribers subs self).

Definition get_history (signal_type_f : option SignalType) (task_id_f : option string)
  (limit : Z) : ST SignalEmitter (list SignalPayload) :=
  fun self =>
    let history := _signal_history self in
    let history := match signal_type_f with
                   | Some t => filter (fun s => SignalType_eqb (signal_type s) t) history
                   | None => history end in
    let history := if py_truthy_str task_id_f
                   then filter (fun s => match task_id_f with
                                         | Some tid => String.eqb (sp_task_id s) tid
                                         | None => true end) history
                   else history in
    (Ok (rev (py_slice_from (- limit) history)), self).

(** [get_history()] with its default arguments. *)
Definition get_history_default : ST SignalEmitter (list SignalPayload) :=
  get_history None None 100.

Fixpoint emit_all (signals : list SignalPayload) : ST SignalEmitter unit :=
  match signals with
  | [] => ret tt
  | s :: rest => emit s ;;; emit_all rest
  end.

Definition clear_history : ST SignalEmitter unit :=
  modify (fun self => set_history [] self).

End Signals.

(** ** task_manager.py *)
Module Tasks.
Import Signals.

Inductive TaskPriority : Type := LOW | NORMAL | HIGH | CRITICAL.

Definition priority_value (p : TaskPriority) : nat :=
  match p with LOW => 1 | NORMAL => 2 | HIGH => 3 | CRITICAL => 4 end.

Definition priority_name (p : TaskPriority) : string :=
  match p with LOW => "LOW" | NORMAL => "NORMAL" | HIGH => "HIGH" | CRITICAL => "CRITICAL" end.

Inductive TaskExecutionMode : Type := SEQUENTIAL | PARALLEL.

(** Timestamps are [utcnow()] readings, in seconds. *)
Record TaskMetadata : Type := mkTask {
  task_id : string;
  name : string;
  description : string;
  priority : TaskPriority;
  status : TaskStatus;
  agent_id : option string;
  parent_task_id : option string;
  dependencies : list string;
  created_at : nat;
  started_at : option nat;
  completed_at : option nat;
  error : option string;
  result : PyVal;
  execution_mode : TaskExecutionMode;
  metadata : list (string * PyVal)
}.

Definition set_status (st : TaskStatus) (t : TaskMetadata) : TaskMetadata :=
  mkTask (task_id t) (name t) (description t) (priority t) st (agent_id t)
    (parent_task_id t) (dependencies t) (created_at t) (started_at t)
    (completed_at t) (error t) (result t) (execution_mode t) (metadata t).
Definition set_agent_id (a : option string) (t : TaskMetadata) : TaskMetadata :=
  mkTask (task_id t) (name t) (description t) (priority t) (status t) a
    (parent_task_id t) (dependencies t) (created_at t) (started_at t)
    (completed_at t) (error t) (result t) (execution_mode t) (metadata t).
Definition set_started_at (d : option nat) (t : TaskMetadata) : TaskMetadata :=
  mkTask (task_id t) (name t) (description t) (priority t) (status t) (agent_id t)
    (parent_task_id t) (dependencies t) (created_at t) d
    (completed_at t) (error t) (result t) (execution_mode t) (metadata t).
Definition set_completed_at (d : option nat) (t : TaskMetadata) : TaskMetadata :=
  mkTask (task_id t) (name t) (description t) (priority t) (status t) (agent_id t)
    (parent_task_id t) (dependencies t) (created_at t) (started_at t)
    d (error t) (result t) (execution_mode t) (metadata t).
Definition set_error (e : option string) (t : TaskMetadata) : TaskMetadata :=
  mkTask (task_id t) (name t) (description t) (priority t) (status t) (agent_id t)
    (parent_task_id t) (dependencies t) (created_at t) (started_at t)
    (completed_at t) e (result t) (execution_mode t) (metadata t).
Definition set_result (r : PyVal) (t : TaskMetadata) : TaskMetadata :=
  mkTask (task_id t) (name t) (description t) (priority t) (status t) (agent_id t)
    (parent_task_id t) (dependencies t) (created_at t) (started_at t)
    (completed_at t) (error t) r (execution_mode t) (metadata t).
Definition set_metadata (m : list (string * PyVal)) (t : TaskMetadata) : TaskMetadata :=
  mkTask (task_id t) (name t) (description t) (priority t) (status t) (agent_id t)
    (parent_task_id t) (dependencies t) (created_at t) (started_at t)
    (completed_at t) (error t) (result t) (execution_mode t) m.

(** [duration_seconds]: datetimes are always truthy. *)
Definition duration_seconds (t : TaskMetadata) : option Z :=
  match started_at t, completed_at t with
  | Some s, Some c => Some (Z.of_nat c - Z.of_nat s)%Z
  | _, _ => None
  end.

Definition is_ready (t : TaskMetadata) (completed_tasks : list string) : bool :=
  if negb (TaskStatus_eqb (status t) PENDING) then false
  else forallb (fun d => existsb (String.eqb d) completed_tasks) (dependencies t).

Record TaskManager : Type := mkManager {
  _tasks : list (string * TaskMetadata);
  _emitter : SignalEmitter;
  _parent_to_children : list (string * list string);
  _dependencies_graph : list (string * list string)
}.

Definition set_tasks (ts : list (string * TaskMetadata)) (m : TaskManager) : TaskManager :=
  mkManager ts (_emitter m) (_parent_to_children m) (_dependencies_graph m).
Definition set_emitter (e : SignalEmitter) (m : TaskManager) : TaskManager :=
  mkManager (_tasks m) e (_parent_to_children m) (_dependencies_graph m).

(** [self._emitter.emit(...)] from the registry. *)
Definition emit_m (signal : SignalPayload) : ST TaskManager unit :=
  zoom _emitter set_emitter (emit signal ;;; ret tt).

(** [create_task]; [new_id] is the uuid4 drawn for the task and [now] the
    [utcnow()] reading. *)
Definition create_task (new_id : string) (now : nat) (name : string)
  (description : string) (priority : TaskPriority) (agent_id : option string)
  (parent_task_id : option string) (dependencies : list string)
  (execution_mode : TaskExecutionMode) (metadata : list (string * PyVal))
  : ST TaskManager string :=
  fun self =>
    let task := mkTask new_id name description priority PENDING agent_id
                  parent_task_id dependencies now None None None PNone
                  execution_mode metadata in
    let tasks := dict_set new_id task (_tasks self) in
    let p2c := if py_truthy_str parent_task_id
               then match parent_task_id with
                    | Some p => dict_set p (match dict_get p (_parent_to_children self) with
                                            | Some l => l ++ [new_id]
                                            | None => [new_id] end)
                                  (_parent_to_children self)
                    | None => _parent_to_children self end
               else _parent_to_children self in
    let deps := match dependencies with
                | [] => _dependencies_graph self
                | _ => dict_set new_id dependencies (_dependencies_graph self) end in
    (Ok new_id, mkManager tasks (_emitter self) p2c deps).

(** [start_task]; [now] is the [utcnow()] reading and [sid] the uuid4 of
    the emitted payload. *)
Definition start_task (task_id : string) (agent_id : option string) (now sid : nat)
  : ST TaskManager bool :=
  fun self =>
    match dict_get task_id (_tasks self) with
    | None => (Ok false, self)
    | Some task =>
        if negb (TaskStatus_eqb (status task) PENDING) then (Ok false, self)
        else
          let task := set_started_at (Some now) (set_status RUNNING task) in
          let task := if py_truthy_str agent_id then set_agent_id agent_id task else task in
          let self := set_tasks (dict_set task_id task (_tasks self)) self in
          (emit_m (mkSignal sid TASK_STARTED now task_id (Tasks.agent_id task)
                     [("name", PStr (name task));
                      ("priority", PStr (priority_name (priority task)))] None) ;;;
           ret true) self
    end.

Definition duration_val (d : option Z) : PyVal :=
  match d with Some z => PInt z | None => PNone end.

Definition complete_task (task_id : string) (result : PyVal) (now sid : nat)
  : ST TaskManager bool :=
  fun self =>
    match dict_get task_id (_tasks self) with
    | None => (Ok false, self)
    | Some task =>
        if negb (TaskStatus_eqb (status task) RUNNING) then (Ok false, self)
        else
          let task := set_result result (set_completed_at (Some now) (set_status COMPLETED task)) in
          let duration := duration_seconds task in
          let self := set_tasks (dict_set task_id task (_tasks self)) self in
          (emit_m (mkSignal sid TASK_COMPLETED now task_id (agent_id task)
                     [("name", PStr (name task)); ("result", result);
                      ("duration_seconds", duration_val duration)] None) ;;;
           ret true) self
    end.

Definition fail_task (task_id : string) (error : string) (now sid : nat)
  : ST TaskManager bool :=
  fun self =>
    match dict_get task_id (_tasks self) with
    | None => (Ok false, self)
    | Some task =>
        let task := set_error (Some error) (set_completed_at (Some now) (set_status FAILED task)) in
        let self := set_tasks (dict_set task_id task (_tasks self)) self in
        (emit_m (mkSignal sid TASK_FAILED now task_id (agent_id task)
                   [("name", PStr (name task))] (Some error)) ;;;
         ret true) self
    end.

Definition get_task (task_id : string) : ST TaskManager (option TaskMetadata) :=
  gets (fun self => dict_get task_id (_tasks self)).

(** [list.sort(key=..., reverse=True)]: CPython reverses the list, runs its
    stable ascending sort and reverses the result. *)
Fixpoint insert_by {A} (key : A -> nat) (x : A) (l : list A) : list A :=
  match l with
  | [] => [x]
  | y :: t => if Nat.leb (key x) (key y) then x :: y :: t else y :: insert_by key x t
  end.

Fixpoint stable_sort {A} (key : A -> nat) (l : list A) : list A :=
  match l with
  | [] => []
  | x :: t => insert_by key x (stable_sort key t)
  end.

Definition py_sort_reverse {A} (key : A -> nat) (l : list A) : list A :=
  rev (stable_sort key (rev l)).

Definition get_ready_tasks : ST TaskManager (list TaskMetadata) :=
  fun self =>
    let completed_tasks :=
      map fst (filter (fun p => TaskStatus_eqb (status (snd p)) COMPLETED) (_tasks self)) in
    let ready_tasks := filter (fun t => is_ready t completed_tasks) (map snd (_tasks self)) in
    (Ok (py_sort_reverse (fun t => priority_value (priority t)) ready_tasks), self).

Definition has_pending_tasks : ST TaskManager bool :=
  gets (fun self =>
    existsb (fun p => TaskStatus_eqb (status (snd p)) PENDING
                      || TaskStatus_eqb (status (snd p)) RUNNING) (_tasks self)).

(** [get_children_tasks]: the recorded children that are still in the
    registry, in the order they were recorded. *)
Definition get_children_tasks (parent_task_id : string) : ST TaskManager (list TaskMetadata) :=
  gets (fun self =>
    let child_ids := match dict_get parent_task_id (_parent_to_children self) with
                     | Some l => l
                     | None => []
                     end in
    flat_map (fun tid => match dict_get tid (_tasks self) with
                         | Some t => [t]
                         | None => []
                         end) child_ids).

Definition get_tasks_by_status (st : TaskStatus) : ST TaskManager (list TaskMetadata) :=
  gets (fun self => filter (fun t => TaskStatus_eqb (status t) st) (map snd (_tasks self))).

Definition get_all_tasks : ST TaskManager (list TaskMetadata) :=
  gets (fun self => map snd (_tasks self)).

(** [clear_tasks]: the emitter and its history are left alone. *)
Definition clear_tasks : ST TaskManager unit :=
  modify (fun self => mkManager [] (_emitter self) [] []).

End Tasks.

(** ** orchestrator.py *)
Module Orchestrator.
Import Signals Tasks.

Section Orchestrator.

(** The state the task callables act on, and the behaviour of the callable
    behind each handle [PFunc n], applied to positional and keyword
    arguments. *)
Variable W : Type.
Variable call_func : nat -> list PyVal -> list (string * PyVal) -> ST W PyVal.

(** The registry (holding the shared emitter), the callables' world, the
    clock behind [utcnow()] and [uuid4()], the orchestrator's
    [self._futures] (each future holding the outcome of its job) and
    whether [self._thread_pool] has been shut down.  A new orchestrator has
    no futures and an open pool. *)
Record OState : Type := mkO {
  o_mgr : TaskManager;
  o_world : W;
  o_clock : nat;
  o_futures : list (string * Exc PyVal);
  o_pool_down : bool
}.

Definition set_mgr (m : TaskManager) (o : OState) : OState :=
  mkO m (o_world o) (o_clock o) (o_futures o) (o_pool_down o).
Definition set_world (w : W) (o : OState) : OState :=
  mkO (o_mgr o) w (o_clock o) (o_futures o) (o_pool_down o).
Definition set_futures (f : list (string * Exc PyVal)) (o : OState) : OState :=
  mkO (o_mgr o) (o_world o) (o_clock o) f (o_pool_down o).

Definition draw : ST OState nat :=
  fun o => (Ok (o_clock o), mkO (o_mgr o) (o_world o) (S (o_clock o)) (o_futures o) (o_pool_down o)).

Definition reg {A} (m : ST TaskManager A) : ST OState A := zoom o_mgr set_mgr m.

(** Calling [task_func] with the unpacked positional and keyword arguments. *)
Definition py_call (task_func : PyVal) (args : list PyVal) (kwargs : list (string * PyVal))
  : ST OState PyVal :=
  match task_func with
  | PFunc n => zoom o_world set_world (call_func n args kwargs)
  | _ => raise "TypeError" "object is not callable"
  end.

(** [*args] and [**kwargs] at a call site. *)
Definition unpack_args (v : PyVal) : Exc (list PyVal) :=
  match v with
  | PTuple vs => Ok vs
  | PStr s => Ok (map (fun c => PStr (String c EmptyString)) (list_ascii_of_string s))
  | PDict kvs => Ok (map (fun kv => PStr (fst kv)) kvs)
  | _ => Raise "TypeError" "argument after * must be an iterable"
  end.

Definition unpack_kwargs (v : PyVal) : Exc (list (string * PyVal)) :=
  match v with
  | PDict kvs => Ok kvs
  | _ => Raise "TypeError" "argument after ** must be a mapping"
  end.

Definition meta_get (k : string) (default : PyVal) (md : list (string * PyVal)) : PyVal :=
  match dict_get k md with Some v => v | None => default end.

(** Binding [execute_task(task_id, task_func, *args, **kwargs)] of the
    bound method [self._executor.execute_task]: a keyword naming [self],
    [task_id] or [task_func] repeats a parameter already given, and the
    call raises [TypeError] on the first such keyword. *)
Definition executor_kwargs_clash (kwargs : list (string * PyVal)) : option string :=
  match find (fun kv => existsb (String.eqb (fst kv)) ["self"; "task_id"; "task_func"]) kwargs with
  | Some kv => Some (fst kv)
  | None => None
  end.

(** [TaskExecutor.execute_task] *)
Definition executor_execute_task (task_id : string) (task_func : PyVal)
  (args : list PyVal) (kwargs : list (string * PyVal)) : ST OState PyVal :=
  task <- reg (get_task task_id) ;;
  match task with
  | None => raise "ValueError" ("Task " ++ task_id ++ " not found")
  | Some _ =>
      try_except
        (t0 <- draw ;;
         _ <- reg (start_task task_id None t0 t0) ;;
         result <- py_call task_func args kwargs ;;
         t1 <- draw ;;
         _ <- reg (complete_task task_id result t1 t1) ;;
         ret result)
        (fun ty e =>
           t2 <- draw ;;
           _ <- reg (fail_task task_id e t2 t2) ;;
           raise ty e)
  end.

(** [self._executor.execute_task(task_id, task_func, *args, **kwargs)]
    once the arguments are unpacked. *)
Definition call_executor (task_id : string) (task_func : PyVal)
  (args : list PyVal) (kwargs : list (string * PyVal)) : ST OState PyVal :=
  match executor_kwargs_clash kwargs with
  | Some name =>
      raise "TypeError"
        ("TaskExecutor.execute_task() got multiple values for argument '" ++ name ++ "'")
  | None => executor_execute_task task_id task_func args kwargs
  end.

(** [TaskOrchestrator.create_task]; [new_id] is the uuid4 of the task. *)
Definition orch_create_task (new_id : string) (name : string) (task_func : PyVal)
  (args : list PyVal) (kwargs : list (string * PyVal)) (description : string)
  (priority : TaskPriority) (agent_id : option string) (parent_task_id : option string)
  (dependencies : list string) (execution_mode : TaskExecutionMode)
  (metadata : list (string * PyVal)) : ST OState string :=
  now <- draw ;;
  task_id <- reg (create_task new_id now name description priority agent_id
                    parent_task_id dependencies execution_mode metadata) ;;
  task <- reg (get_task task_id) ;;
  match task with
  | Some task =>
      let md := dict_set "_task_kwargs" (PDict kwargs)
                  (dict_set "_task_args" (PTuple args)
                     (dict_set "_task_func" task_func (Tasks.metadata task))) in
      reg (modify (fun m => set_tasks (dict_set task_id (set_metadata md task) (_tasks m)) m)) ;;;
      ret task_id
  | None => ret task_id
  end.

(** [TaskOrchestrator.execute_task] *)
Definition execute_task (task_id : string) : ST OState PyVal :=
  task <- reg (get_task task_id) ;;
  match task with
  | None => raise "ValueError" ("Task " ++ task_id ++ " not found")
  | Some task =>
      let task_func := meta_get "_task_func" PNone (Tasks.metadata task) in
      if negb (py_truthy task_func)
      then raise "ValueError" (String.append "No task function defined for " task_id)
      else
        let args := meta_get "_task_args" (PTuple []) (Tasks.metadata task) in
        let kwargs := meta_get "_task_kwargs" (PDict []) (Tasks.metadata task) in
        match unpack_args args with
        | Raise t e => raise t e
        | Ok a =>
            match unpack_kwargs kwargs with
            | Raise t e => raise t e
            | Ok k => call_executor task_id task_func a k
            end
        end
  end.

(** The loop of [execute_tasks_sequential]: [break] on the first
    exception. *)
Fixpoint sequential_loop (task_ids : list string) (results : list (string * PyVal))
  : ST OState (list (string * PyVal)) :=
  match task_ids with
  | [] => ret results
  | task_id :: rest =>
      r <- try_except (v <- execute_task task_id ;; ret (Some v)) (fun _ _ => ret None) ;;
      match r with
      | Some v => sequential_loop rest (dict_set task_id v results)
      | None => ret results
      end
  end.

Definition execute_tasks_sequential (task_ids : list string) : ST OState (list (string * PyVal)) :=
  sequential_loop task_ids [].

(** [pool.submit(fn, ...)]: the job's outcome is kept in its future.  Jobs
    run to completion in submission order, the schedule of a pool whose
    jobs do not interleave; [submit] refuses new jobs once the pool is
    shut down. *)
Definition run_job {A} (m : ST OState A) : ST OState (Exc A) :=
  fun s => let (r, s') := m s in (Ok r, s').

Definition pool_submit (job : ST OState PyVal) : ST OState (Exc PyVal) :=
  down <- gets o_pool_down ;;
  if down then raise "RuntimeError" "cannot schedule new futures after shutdown"
  else run_job job.

(** The submission loop of [execute_tasks_parallel], storing each future
    in [self._futures]; an exception leaves the loop and the call, with
    the futures stored so far kept. *)
Fixpoint submit_all (task_ids : list string) : ST OState unit :=
  match task_ids with
  | [] => ret tt
  | task_id :: rest =>
      task <- reg (get_task task_id) ;;
      match task with
      | None => submit_all rest
      | Some task =>
          let task_func := meta_get "_task_func" PNone (Tasks.metadata task) in
          if negb (py_truthy task_func) then submit_all rest
          else
            let args := meta_get "_task_args" (PTuple []) (Tasks.metadata task) in
            let kwargs := meta_get "_task_kwargs" (PDict []) (Tasks.metadata task) in
            match unpack_args args with
            | Raise t e => raise t e
            | Ok a =>
                match unpack_kwargs kwargs with
                | Raise t e => raise t e
                | Ok k =>
                    future <- pool_submit (call_executor task_id task_func a k) ;;
                    modify (fun o => set_futures (dict_set task_id future (o_futures o)) o) ;;;
                    submit_all rest
                end
            end
      end
  end.

(** The wait loop: [future.result()] or [None] when it raised. *)
Fixpoint collect (task_ids : list string) (futures : list (string * Exc PyVal))
  (results : list (string * PyVal)) : list (string * PyVal) :=
  match task_ids with
  | [] => results
  | task_id :: rest =>
      match dict_get task_id futures with
      | Some (Ok v) => collect rest futures (dict_set task_id v results)
      | Some (Raise _ _) => collect rest futures (dict_set task_id PNone results)
      | None => collect rest futures results
      end
  end.

(** [d.pop(key, None)], the value dropped. *)
Definition dict_pop {V} (k : string) (d : list (string * V)) : list (string * V) :=
  filter (fun p => negb (String.eqb (fst p) k)) d.

Definition execute_tasks_parallel (task_ids : list string) : ST OState (list (string * PyVal)) :=
  submit_all task_ids ;;;
  futures <- gets o_futures ;;
  let results := collect task_ids futures [] in
  modify (fun o => set_futures (fold_left (fun f tid => dict_pop tid f) task_ids (o_futures o)) o) ;;;
  ret results.

(** [self._thread_pool.shutdown(wait=True)] in [shutdown]: every job has
    run by the time it was submitted, so there is nothing to wait for; the
    pool refuses new jobs from then on. *)
Definition pool_shutdown : ST OState unit :=
  modify (fun o => mkO (o_mgr o) (o_world o) (o_clock o) (o_futures o) true).

Definition get_task_status (task_id : string) : ST OState (option TaskStatus) :=
  task <- reg (get_task task_id) ;;
  ret (option_map status task).

(** [TaskOrchestrator.get_all_tasks] *)
Definition orch_get_all_tasks : ST OState (list TaskMetadata) :=
  reg get_all_tasks.

Definition execute_task_group (parent_task_id : string) (mode : TaskExecutionMode)
  : ST OState (list (string * PyVal)) :=
  children <- reg (get_children_tasks parent_task_id) ;;
  match children with
  | [] => ret []
  | _ =>
      let child_ids := map task_id children in
      match mode with
      | PARALLEL => execute_tasks_parallel child_ids
      | SEQUENTIAL => execute_tasks_sequential child_ids
      end
  end.

Definition mode_eqb (a b : TaskExecutionMode) : bool :=
  match a, b with
  | SEQUENTIAL, SEQUENTIAL | PARALLEL, PARALLEL => true
  | _, _ => false
  end.

(** The [while] loop of [run_until_complete], [fuel] being the iterations
    left.  [time.sleep(0.1)] changes nothing here: the registry changes
    only through the calls of this loop. *)
Fixpoint run_loop (fuel : nat) : ST OState unit :=
  match fuel with
  | O => ret tt
  | S fuel' =>
      ready_tasks <- reg get_ready_tasks ;;
      match ready_tasks with
      | [] =>
          pending <- reg has_pending_tasks ;;
          if negb pending then ret tt
          else run_loop fuel'
      | _ =>
          let parallel_tasks :=
            filter (fun t => mode_eqb (execution_mode t) PARALLEL) ready_tasks in
          let sequential_tasks :=
            filter (fun t => mode_eqb (execution_mode t) SEQUENTIAL) ready_tasks in
          (match parallel_tasks with
           | [] => ret tt
           | _ => execute_tasks_parallel (map task_id parallel_tasks) ;;; ret tt
           end) ;;;
          (match sequential_tasks with
           | [] => ret tt
           | _ => execute_tasks_sequential (map task_id sequential_tasks) ;;; ret tt
           end) ;;;
          run_loop fuel'
      end
  end.

Definition run_until_complete (max_iterations : Z) : ST OState unit :=
  run_loop (Z.to_nat max_iterations).

End Orchestrator.

(** The handlers [_setup_signal_handlers] installs: [on_task_completed]
    reads the ready tasks and logs, [on_task_failed] logs; neither
    raises nor changes any state. *)
Definition on_task_completed (signal : SignalPayload) : Exc unit := Ok tt.
Definition on_task_failed (signal : SignalPayload) : Exc unit := Ok tt.

(** The part of [TaskOrchestrator.__init__] and [shutdown] acting on the
    global emitter ([self._emitter]); [shutdown] also joins the thread
    pool, whose jobs have all run here. *)
Definition _setup_signal_handlers : ST SignalEmitter unit :=
  subscribe "orchestrator_completion" [TASK_COMPLETED] on_task_completed None ;;;
  subscribe "orchestrator_failure" [TASK_FAILED] on_task_failed None ;;;
  ret tt.

Definition shutdown : ST SignalEmitter unit :=
  unsubscribe "orchestrator_completion" ;;;
  unsubscribe "orchestrator_failure" ;;;
  ret tt.

End Orchestrator.

(** ** Definitions following the specification's words *)
Module SpecSide.
Import Signals Tasks.

(** The specification's matching rule: kind in the kind-set and the task
    filter nil or equal to the event's task id. *)
Definition claim_matches (signal : SignalPayload) (sub : Subscription) : bool :=
  type_in (signal_type signal) (signal_types sub)
  && match task_filter sub with
     | None => true
     | Some f => String.eqb f (sp_task_id signal)
     end.

(** The rule the code implements: an empty filter counts as no filter. *)
Definition matches_amended (signal : SignalPayload) (sub : Subscription) : bool :=
  type_in (signal_type signal) (signal_types sub)
  && match task_filter sub with
     | None => true
     | Some f => String.eqb f "" || String.eqb f (sp_task_id signal)
     end.

(** Whether a callback returns normally on an event. *)
Definition callback_returned (sub : Subscription) (signal : SignalPayload) : bool :=
  match callback sub signal with Ok _ => true | Raise _ _ => false end.

(** The last [k] elements of a list. *)
Definition lastn {A} (k : nat) (l : list A) : list A := skipn (length l - k) l.

(** Readiness in the specification's words: pending, and every
    dependency is the id of a completed task of the registry. *)
Definition completed_id_spec (tasks : list (string * TaskMetadata)) (d : string) : bool :=
  existsb (fun p => String.eqb (fst p) d && TaskStatus_eqb (status (snd p)) COMPLETED) tasks.

Definition ready_by_spec (tasks : list (string * TaskMetadata)) (t : TaskMetadata) : bool :=
  TaskStatus_eqb (status t) PENDING && forallb (completed_id_spec tasks) (dependencies t).

End SpecSide.

Module OrchestratorSpec.
Import Signals Tasks Orchestrator.

Section Spec.
Variable W : Type.
Variable call_func : nat -> list PyVal -> list (string * PyVal) -> ST W PyVal.

(** [ids] executed one after the other by [execute_task], each returning
    a value, from state [s] to state [s']. *)
Inductive runs_in_order : list string -> OState W -> list PyVal -> OState W -> Prop :=
| runs_nil s : runs_in_order [] s [] s
| runs_cons tid ids s s1 s2 v vs :
    execute_task W call_func tid s = (Ok v, s1) ->
    runs_in_order ids s1 vs s2 ->
    runs_in_order (tid :: ids) s (v :: vs) s2.

End Spec.

(** The dict built by assigning [results[id] = v] in order. *)
Definition assign_all (ids : list string) (vs : list PyVal) (acc : list (string * PyVal))
  : list (string * PyVal) :=
  fold_left (fun d p => dict_set (fst p) (snd p) d) (combine ids vs) acc.


(** The task ids of the registry with their metadata dicts. *)
Definition meta_view (m : TaskManager) : list (string * list (string * PyVal)) :=
  map (fun p => (fst p, metadata (snd p))) (_tasks m).

(** A task id the parallel strategy submits: known, with a truthy
    [_task_func]. *)
Definition submittable (m : TaskManager) (tid : string) : bool :=
  match dict_get tid (meta_view m) with
  | Some md => py_truthy (meta_get "_task_func" PNone md)
  | None => false
  end.

(** The stored arguments unpack at a call site, as they do for tasks made
    by [orch_create_task] (a tuple and a dict) or without them. *)
Definition unpack_ok {A} (e : Exc A) : bool :=
  match e with Ok _ => true | Raise _ _ => false end.

Definition args_unpackable (m : TaskManager) : Prop :=
  forallb (fun p => unpack_ok (unpack_args (meta_get "_task_args" (PTuple []) (snd p)))
                    && unpack_ok (unpack_kwargs (meta_get "_task_kwargs" (PDict []) (snd p))))
    (meta_view m) = true.

End OrchestratorSpec.

(** Concrete inputs: callables that log their name in a shared list, as
    in the specification's scenario, and a registry holding tasks in
    chosen states. *)
Module Fixtures.
Import Signals Tasks Orchestrator.

(** Handle 0 logs "A" and returns 1, handle 1 logs "B" and raises,
    any other handle logs "C" and returns 3. *)
Definition log_call (n : nat) (args : list PyVal) (kwargs : list (string * PyVal))
  : ST (list string) PyVal :=
  fun w =>
    match n with
    | 0 => (Ok (PInt 1), w ++ ["A"])
    | 1 => (Raise "RuntimeError" "B failed", w ++ ["B"])
    | _ => (Ok (PInt 3), w ++ ["C"])
    end.

Definition bound_task (tid : string) (st : TaskStatus) (f : nat) : TaskMetadata :=
  mkTask tid tid "" NORMAL st None None [] 0 None None None PNone SEQUENTIAL
    [("_task_func", PFunc f); ("_task_args", PTuple []); ("_task_kwargs", PDict [])].

Definition manager_of (ts : list TaskMetadata) : TaskManager :=
  mkManager (map (fun t => (task_id t, t)) ts) SignalEmitter_init [] [].

Definition state_of (ts : list TaskMetadata) : OState (list string) :=
  mkO (list string) (manager_of ts) [] 0 [] false.

End Fixtures.

(** * Proofs *)

Module SignalsFacts.
Import Signals SpecSide.

Lemma deliver_all (subs : list Subscription) (signal : SignalPayload) :
  deliver subs signal = Ok (map (fun sub => (sub, callback_returned sub signal)) subs).
Proof.
  induction subs as [|sub rest IH]; simpl; [reflexivity|].
  unfold callback_returned.
  destruct (callback sub signal); rewrite IH; reflexivity.
Qed.

Lemma find_matching_filter (subs : list Subscription) (signal : SignalPayload) :
  find_matching_subscribers subs signal = filter (matches_amended signal) subs.
Proof.
  induction subs as [|sub rest IH]; simpl; [reflexivity|].
  unfold matches_amended.
  destruct (type_in (signal_type signal) (signal_types sub)); simpl; [|exact IH].
  destruct (task_filter sub) as [f|]; simpl; rewrite IH; [|reflexivity].
  destruct (String.eqb f ""); destruct (String.eqb f (sp_task_id signal)); reflexivity.
Qed.

Lemma find_matching_app (l1 l2 : list Subscription) (signal : SignalPayload) :
  find_matching_subscribers (l1 ++ l2) signal
  = find_matching_subscribers l1 signal ++ find_matching_subscribers l2 signal.
Proof. rewrite !find_matching_filter, filter_app. reflexivity. Qed.

Lemma emit_result (signal : SignalPayload) (em : SignalEmitter) :
  fst (emit signal em)
  = Ok (map (fun sub => (sub, callback_returned sub signal))
            (find_matching_subscribers (_subscribers em) signal)).
Proof. unfold emit; simpl. rewrite deliver_all. reflexivity. Qed.

Lemma emit_state (signal : SignalPayload) (em : SignalEmitter) :
  snd (emit signal em)
  = set_history
      (let h := _signal_history em ++ [signal] in
       if Z.ltb (_max_history em) (Z.of_nat (length h))
       then py_slice_from (- _max_history em) h else h) em.
Proof. unfold emit; simpl. rewrite deliver_all. reflexivity. Qed.

Lemma emit_unfold (signal : SignalPayload) (em : SignalEmitter) :
  emit signal em = (fst (emit signal em), snd (emit signal em)).
Proof. destruct (emit signal em); reflexivity. Qed.

(** Arithmetic on [lastn]. *)
Lemma lastn_all {A} (k : nat) (l : list A) : length l <= k -> lastn k l = l.
Proof. intros H. unfold lastn. replace (length l - k) with 0 by lia. reflexivity. Qed.

Lemma lastn_app_lastn {A} (k j : nat) (l r : list A) :
  k <= j + length r ->
  lastn k (lastn j l ++ r) = lastn k (l ++ r).
Proof.
  intros Hk. destruct (Nat.le_gt_cases j (length l)) as [Hj|Hj].
  - unfold lastn.
    assert (Happ : skipn (length l - j) l ++ r = skipn (length l - j) (l ++ r)).
    { rewrite skipn_app. replace (length l - j - length l) with 0 by lia. reflexivity. }
    rewrite Happ, skipn_skipn, length_skipn, !length_app.
    f_equal. lia.
  - rewrite (lastn_all j l) by lia. reflexivity.
Qed.

Lemma length_lastn {A} (k : nat) (l : list A) :
  length (lastn k l) = Nat.min k (length l).
Proof. unfold lastn. rewrite length_skipn. lia. Qed.

(** The history after one [emit], when it was within the cap. *)
Lemma emit_history_cap (signal : SignalPayload) (em : SignalEmitter) :
  (0 < _max_history em)%Z ->
  length (_signal_history em) <= Z.to_nat (_max_history em) ->
  _signal_history (snd (emit signal em))
  = lastn (Z.to_nat (_max_history em)) (_signal_history em ++ [signal]).
Proof.
  intros Hpos Hle. rewrite emit_state. simpl.
  rewrite length_app. simpl.
  destruct (Z.ltb_spec (_max_history em) (Z.of_nat (length (_signal_history em) + 1))) as [Hlt|Hge].
  - unfold py_slice_from, lastn.
    rewrite (proj2 (Z.ltb_lt _ 0)) by lia.
    rewrite length_app. simpl. f_equal. lia.
  - rewrite lastn_all; [reflexivity|]. rewrite length_app. simpl. lia.
Qed.

Lemma emit_keeps_subscribers (signal : SignalPayload) (em : SignalEmitter) :
  _subscribers (snd (emit signal em)) = _subscribers em /\
  _max_history (snd (emit signal em)) = _max_history em.
Proof. rewrite emit_state. split; reflexivity. Qed.

Lemma emit_all_history (signals : list SignalPayload) (em : SignalEmitter) :
  (0 < _max_history em)%Z ->
  length (_signal_history em) <= Z.to_nat (_max_history em) ->
  fst (emit_all signals em) = Ok tt /\
  _max_history (snd (emit_all signals em)) = _max_history em /\
  _signal_history (snd (emit_all signals em))
  = lastn (Z.to_nat (_max_history em)) (_signal_history em ++ signals).
Proof.
  revert em. induction signals as [|s rest IH]; intros em Hpos Hle.
  - simpl. rewrite app_nil_r, lastn_all by exact Hle. auto.
  - simpl. unfold bind. rewrite emit_unfold, emit_result.
    destruct (emit_keeps_subscribers s em) as [_ Hmax].
    pose proof (emit_history_cap s em Hpos Hle) as Hh.
    destruct (IH (snd (emit s em))) as [H1 [H2 H3]].
    + rewrite Hmax. exact Hpos.
    + rewrite Hh, length_lastn, Hmax. lia.
    + rewrite Hmax in H2, H3. split; [exact H1|]. split; [exact H2|].
      rewrite H3, Hh, lastn_app_lastn.
      * rewrite <- app_assoc. reflexivity.
      * simpl. lia.
Qed.

Lemma lastn_lastn {A} (a b : nat) (l : list A) :
  lastn a (lastn b l) = lastn (Nat.min a b) l.
Proof.
  destruct (Nat.le_gt_cases a b) as [H|H].
  - replace (Nat.min a b) with a by lia.
    rewrite <- (app_nil_r (lastn b l)), lastn_app_lastn by (simpl; lia).
    rewrite app_nil_r. reflexivity.
  - replace (Nat.min a b) with b by lia.
    apply lastn_all. rewrite length_lastn. lia.
Qed.

Lemma py_slice_neg {A} (L : Z) (l : list A) :
  (0 < L)%Z -> py_slice_from (- L) l = lastn (Z.to_nat L) l.
Proof.
  intros HL. unfold py_slice_from, lastn.
  rewrite (proj2 (Z.ltb_lt _ 0)) by lia. f_equal. lia.
Qed.

End SignalsFacts.

Module SignalsClaims.
Import Signals SpecSide SignalsFacts.

(** Claim C7 (as amended): after emitting the events [signals] on a fresh
    bus whose history cap [H] is positive, the stored history is the last
    [min(N, H)] events (oldest dropped first), and [get_history] with no
    filters and a limit [L >= 1] (default 100) returns the most recent
    [min(N, H, L)] of them, most recent first. *)
Theorem history_capped_most_recent_first (H : Z) (subs : list Subscription)
  (signals : list SignalPayload) (HH : (0 < H)%Z) :
  let em := snd (emit_all signals (mkEmitter subs [] H)) in
  fst (emit_all signals (mkEmitter subs [] H)) = Ok tt /\
  _signal_history em = lastn (Nat.min (length signals) (Z.to_nat H)) signals /\
  length (_signal_history em) = Nat.min (length signals) (Z.to_nat H) /\
  (forall L : Z, (1 <= L)%Z ->
     get_history None None L em
     = (Ok (rev (lastn (Nat.min (Z.to_nat L) (Nat.min (length signals) (Z.to_nat H)))
                       signals)), em)).
Proof.
  intros em.
  destruct (emit_all_history signals (mkEmitter subs [] H) HH) as [Hr [_ Hh]];
    [simpl; lia|].
  simpl in Hh.
  assert (Hs : _signal_history em = lastn (Nat.min (length signals) (Z.to_nat H)) signals).
  { unfold em. rewrite Hh. unfold lastn. f_equal. lia. }
  split; [exact Hr|]. split; [exact Hs|]. split.
  - rewrite Hs, length_lastn. lia.
  - intros L HL. unfold get_history. simpl.
    rewrite py_slice_neg by lia. rewrite Hs, lastn_lastn. reflexivity.
Qed.

(** Claim C7, counterexample: with the default cap of 1000, after 101
    events the bus stores all 101, but [history()] with its default
    limit of 100 returns only 100 of them. *)
Lemma history_default_limit_drops_stored :
  let ev := mkSignal 0 TASK_COMPLETED 0 "t" None [] None in
  let em := snd (emit_all (repeat ev 101) SignalEmitter_init) in
  length (_signal_history em) = 101 /\
  length (match fst (get_history_default em) with Ok l => l | Raise _ _ => [] end) = 100.
Proof. split; vm_compute; reflexivity. Qed.

(** Claim C8 (as amended): [emit] never raises to its caller, and it
    invokes the callback of exactly the registered subscribers whose
    kind-set holds the event's kind and whose task filter is nil, empty,
    or the event's task id, in registration order, whether or not earlier
    callbacks raised. *)
Theorem emit_delivers_to_all_matching (em : SignalEmitter) (signal : SignalPayload) :
  fst (emit signal em)
  = Ok (map (fun sub => (sub, callback_returned sub signal))
            (filter (matches_amended signal) (_subscribers em))) /\
  _subscribers (snd (emit signal em)) = _subscribers em.
Proof.
  split.
  - rewrite emit_result, find_matching_filter. reflexivity.
  - apply emit_keeps_subscribers.
Qed.

(** Claim C8, counterexample: a subscriber whose task filter is the empty
    string is invoked for an event of another task, which the stated rule
    (filter nil or equal to the task id) excludes. *)
Lemma empty_task_filter_matches_any_task :
  let sub := mkSubscription "s" [TASK_COMPLETED] (fun _ => Ok tt) (Some "") in
  let signal := mkSignal 0 TASK_COMPLETED 0 "t1" None [] None in
  fst (emit signal (mkEmitter [sub] [] 1000)) = Ok [(sub, true)] /\
  claim_matches signal sub = false.
Proof. split; reflexivity. Qed.

(** Claim C9: subscribing twice under one id appends two entries; an
    event is delivered once per matching entry; [unsubscribe] removes
    every entry under the id and returns true exactly when one existed. *)
Theorem subscribe_accumulates_unsubscribe_removes_all :
  (forall (em : SignalEmitter) (sid : string) ks1 cb1 tf1 ks2 cb2 tf2,
     let s1 := mkSubscription sid ks1 cb1 tf1 in
     let s2 := mkSubscription sid ks2 cb2 tf2 in
     let em2 := snd (subscribe sid ks2 cb2 tf2 (snd (subscribe sid ks1 cb1 tf1 em))) in
     _subscribers em2 = _subscribers em ++ [s1; s2] /\
     (forall signal,
        fst (emit signal em2)
        = Ok (map (fun sub => (sub, callback_returned sub signal))
                  (find_matching_subscribers (_subscribers em) signal
                   ++ find_matching_subscribers [s1; s2] signal)))) /\
  (forall (em : SignalEmitter) (sid : string),
     let kept := filter (fun sub => negb (String.eqb (subscriber_id sub) sid))
                   (_subscribers em) in
     unsubscribe sid em
     = (Ok (existsb (fun sub => String.eqb (subscriber_id sub) sid) (_subscribers em)),
        set_subscribers kept em) /\
     Forall (fun sub => subscriber_id sub <> sid) kept).
Proof.
  split.
  - intros em sid ks1 cb1 tf1 ks2 cb2 tf2 s1 s2 em2.
    assert (Hs : _subscribers em2 = _subscribers em ++ [s1; s2]).
    { unfold em2. simpl. rewrite <- app_assoc. reflexivity. }
    split; [exact Hs|].
    intros signal. rewrite emit_result, Hs, find_matching_app. reflexivity.
  - intros em sid kept. split.
    + unfold unsubscribe. f_equal. f_equal.
      unfold kept. induction (_subscribers em) as [|sub rest IH]; [reflexivity|].
      simpl. destruct (String.eqb (subscriber_id sub) sid); simpl.
      * apply Nat.ltb_lt. pose proof (filter_length_le
          (fun sub0 => negb (String.eqb (subscriber_id sub0) sid)) rest) as Hl. lia.
      * rewrite <- IH. reflexivity.
    + apply Forall_forall. intros sub Hin. unfold kept in Hin.
      apply filter_In in Hin. destruct Hin as [_ Hne].
      intros Heq. rewrite Heq, String.eqb_refl in Hne. discriminate.
Qed.

End SignalsClaims.

Module TasksFacts.
Import Signals Tasks SpecSide SignalsFacts.

Lemma TaskStatus_eqb_eq (a b : TaskStatus) : TaskStatus_eqb a b = true <-> a = b.
Proof. destruct a, b; simpl; split; congruence. Qed.

Lemma dict_get_set_same {V} (k : string) (v : V) (d : list (string * V)) :
  dict_get k (dict_set k v d) = Some v.
Proof.
  induction d as [|[k' v'] d IH]; simpl.
  - rewrite String.eqb_refl. reflexivity.
  - destruct (String.eqb_spec k k') as [->|Hne]; simpl.
    + rewrite String.eqb_refl. reflexivity.
    + apply String.eqb_neq in Hne. rewrite Hne. exact IH.
Qed.

Lemma dict_get_set_other {V} (k k' : string) (v : V) (d : list (string * V)) :
  k' <> k -> dict_get k' (dict_set k v d) = dict_get k' d.
Proof.
  intros Hne. induction d as [|[k0 v0] d IH]; simpl.
  - apply String.eqb_neq in Hne. rewrite Hne. reflexivity.
  - destruct (String.eqb_spec k k0) as [->|Hk]; simpl.
    + apply String.eqb_neq in Hne. rewrite Hne. reflexivity.
    + destruct (String.eqb k' k0); [reflexivity|exact IH].
Qed.

Lemma dict_set_keys {V} (k : string) (v : V) (d : list (string * V)) :
  dict_get k d <> None -> map fst (dict_set k v d) = map fst d.
Proof.
  induction d as [|[k0 v0] d IH]; simpl; intros H; [congruence|].
  destruct (String.eqb_spec k k0) as [->|Hk]; simpl; [reflexivity|].
  f_equal. apply IH. exact H.
Qed.

Lemma dict_get_In {V} (k : string) (v : V) (d : list (string * V)) :
  dict_get k d = Some v -> In (k, v) d.
Proof.
  induction d as [|[k0 v0] d IH]; simpl; [discriminate|].
  destruct (String.eqb_spec k k0) as [->|_]; intros H.
  - inversion H. left. reflexivity.
  - right. apply IH. exact H.
Qed.

(** The registry's emission never raises. *)
Lemma emit_m_ok (signal : SignalPayload) (m : TaskManager) :
  emit_m signal m = (Ok tt, set_emitter (snd (emit signal (_emitter m))) m).
Proof.
  unfold emit_m, zoom, bind, ret.
  rewrite emit_unfold, emit_result. reflexivity.
Qed.

(** ** The sort of [get_ready_tasks] *)
Section Sorting.
Context {A : Type} (key : A -> nat).

Lemma In_insert_by (x a : A) (l : list A) : In x (insert_by key a l) <-> x = a \/ In x l.
Proof.
  induction l as [|y t IH]; simpl.
  - intuition.
  - destruct (Nat.leb (key a) (key y)); simpl; [intuition|].
    rewrite IH. intuition.
Qed.

Lemma In_stable_sort (x : A) (l : list A) : In x (stable_sort key l) <-> In x l.
Proof.
  induction l as [|y t IH]; simpl; [reflexivity|].
  rewrite In_insert_by, IH. intuition.
Qed.

Lemma insert_by_sorted (a : A) (l : list A) :
  StronglySorted (fun x y => key x <= key y) l ->
  StronglySorted (fun x y => key x <= key y) (insert_by key a l).
Proof.
  induction l as [|y t IH]; simpl; intros Hs.
  - constructor; constructor.
  - apply StronglySorted_inv in Hs. destruct Hs as [Ht Hy].
    destruct (Nat.leb_spec (key a) (key y)) as [Hle|Hgt].
    + constructor; [constructor; assumption|].
      constructor; [exact Hle|].
      eapply Forall_impl; [|exact Hy]. simpl. intros z Hz. lia.
    + constructor; [apply IH; exact Ht|].
      apply Forall_forall. intros z Hz. apply In_insert_by in Hz.
      destruct Hz as [->|Hz]; [lia|].
      rewrite Forall_forall in Hy. apply Hy. exact Hz.
Qed.

Lemma stable_sort_sorted (l : list A) :
  StronglySorted (fun x y => key x <= key y) (stable_sort key l).
Proof.
  induction l as [|y t IH]; simpl; [constructor|].
  apply insert_by_sorted. exact IH.
Qed.

(** Stability: the elements of one key keep their relative order. *)
Lemma filter_insert_by (n : nat) (a : A) (l : list A) :
  filter (fun x => Nat.eqb (key x) n) (insert_by key a l)
  = if Nat.eqb (key a) n then a :: filter (fun x => Nat.eqb (key x) n) l
    else filter (fun x => Nat.eqb (key x) n) l.
Proof.
  induction l as [|y t IH]; simpl.
  - destruct (Nat.eqb (key a) n); reflexivity.
  - destruct (Nat.leb_spec (key a) (key y)) as [Hle|Hgt]; simpl.
    + destruct (Nat.eqb (key a) n); reflexivity.
    + rewrite IH.
      destruct (Nat.eqb_spec (key a) n) as [Ha|Ha];
        destruct (Nat.eqb_spec (key y) n) as [Hy|Hy]; try reflexivity; lia.
Qed.

Lemma filter_stable_sort (n : nat) (l : list A) :
  filter (fun x => Nat.eqb (key x) n) (stable_sort key l)
  = filter (fun x => Nat.eqb (key x) n) l.
Proof.
  induction l as [|y t IH]; simpl; [reflexivity|].
  rewrite filter_insert_by, IH. reflexivity.
Qed.

Lemma StronglySorted_snoc (R : A -> A -> Prop) (l : list A) (a : A) :
  StronglySorted R l -> (forall x, In x l -> R x a) -> StronglySorted R (l ++ [a]).
Proof.
  induction l as [|y t IH]; simpl; intros Hs Ha.
  - constructor; constructor.
  - apply StronglySorted_inv in Hs. destruct Hs as [Ht Hy].
    constructor.
    + apply IH; [exact Ht|]. intros x Hx. apply Ha. right. exact Hx.
    + apply Forall_app. split; [exact Hy|]. constructor; [apply Ha; left; reflexivity|constructor].
Qed.

Lemma StronglySorted_rev (R : A -> A -> Prop) (l : list A) :
  StronglySorted R l -> StronglySorted (fun x y => R y x) (rev l).
Proof.
  induction l as [|y t IH]; simpl; intros Hs; [constructor|].
  apply StronglySorted_inv in Hs. destruct Hs as [Ht Hy].
  apply StronglySorted_snoc; [apply IH; exact Ht|].
  intros x Hx. apply in_rev in Hx. rewrite Forall_forall in Hy. apply Hy. exact Hx.
Qed.

Lemma py_sort_reverse_sorted (l : list A) :
  Sorted (fun x y => key y <= key x) (py_sort_reverse key l).
Proof.
  apply StronglySorted_Sorted. unfold py_sort_reverse.
  apply (StronglySorted_rev (fun x y => key x <= key y)).
  apply stable_sort_sorted.
Qed.

Lemma In_py_sort_reverse (x : A) (l : list A) : In x (py_sort_reverse key l) <-> In x l.
Proof.
  unfold py_sort_reverse. rewrite <- in_rev, In_stable_sort, <- in_rev. reflexivity.
Qed.

Lemma filter_py_sort_reverse (n : nat) (l : list A) :
  filter (fun x => Nat.eqb (key x) n) (py_sort_reverse key l)
  = filter (fun x => Nat.eqb (key x) n) l.
Proof.
  unfold py_sort_reverse.
  rewrite filter_rev, filter_stable_sort, filter_rev, rev_involutive. reflexivity.
Qed.

End Sorting.

Lemma is_ready_spec (t : TaskMetadata) (completed_tasks : list string) :
  is_ready t completed_tasks = true <->
  status t = PENDING /\ (forall d, In d (dependencies t) -> In d completed_tasks).
Proof.
  unfold is_ready.
  destruct (TaskStatus_eqb (status t) PENDING) eqn:Hs; simpl.
  - apply TaskStatus_eqb_eq in Hs. rewrite forallb_forall. split.
    + intros H. split; [exact Hs|]. intros d Hd. specialize (H d Hd).
      apply existsb_exists in H. destruct H as [d' [Hin Heq]].
      apply String.eqb_eq in Heq. subst. exact Hin.
    + intros [_ H] d Hd. apply existsb_exists. exists d.
      split; [apply H; exact Hd|apply String.eqb_refl].
  - split; [discriminate|]. intros [Hp _]. rewrite Hp in Hs. discriminate.
Qed.

Lemma In_completed_ids (d : string) (tasks : list (string * TaskMetadata)) :
  In d (map fst (filter (fun p => TaskStatus_eqb (status (snd p)) COMPLETED) tasks)) <->
  exists t, In (d, t) tasks /\ status t = COMPLETED.
Proof.
  rewrite in_map_iff. split.
  - intros [[k t] [Hk Hin]]. simpl in Hk. subst k.
    apply filter_In in Hin. destruct Hin as [Hin Hs].
    apply TaskStatus_eqb_eq in Hs. exists t. split; assumption.
  - intros [t [Hin Hs]]. exists (d, t). split; [reflexivity|].
    apply filter_In. split; [exact Hin|]. apply TaskStatus_eqb_eq. exact Hs.
Qed.

Lemma is_ready_by_spec (t : TaskMetadata) (tasks : list (string * TaskMetadata)) :
  is_ready t (map fst (filter (fun p => TaskStatus_eqb (status (snd p)) COMPLETED) tasks))
  = ready_by_spec tasks t.
Proof.
  unfold is_ready, ready_by_spec.
  destruct (TaskStatus_eqb (status t) PENDING); simpl; [|reflexivity].
  induction (dependencies t) as [|d ds IHd]; simpl; [reflexivity|].
  rewrite IHd. f_equal. unfold completed_id_spec. clear IHd.
  induction tasks as [|[k u] rest IH]; simpl; [reflexivity|].
  destruct (TaskStatus_eqb (status u) COMPLETED); simpl.
  - rewrite IH, String.eqb_sym. destruct (String.eqb k d); reflexivity.
  - rewrite IH. destruct (String.eqb k d); reflexivity.
Qed.

Lemma ready_by_spec_true (tasks : list (string * TaskMetadata)) (t : TaskMetadata) :
  ready_by_spec tasks t = true <->
  status t = PENDING /\
    (forall d, In d (dependencies t) -> exists t', In (d, t') tasks /\ status t' = COMPLETED).
Proof.
  rewrite <- is_ready_by_spec, is_ready_spec.
  split; intros [Hp Hd]; split; try exact Hp; intros d Hin.
  - apply In_completed_ids. apply Hd. exact Hin.
  - apply In_completed_ids. apply Hd. exact Hin.
Qed.

End TasksFacts.

Module TasksClaims.
Import Signals Tasks SpecSide SignalsFacts TasksFacts.

(** Claim C2 (code_bug): [fail_task] has no status guard, unlike
    [start_task] and [complete_task]: on a task in a terminal status
    (completed, failed or cancelled) it returns true and overwrites the
    status with failed, the error and the end time. *)
Theorem fail_task_overrides_terminal_status (m : TaskManager) (tid e : string) (now sid : nat)
  (t : TaskMetadata) (Hget : dict_get tid (_tasks m) = Some t)
  (Hterm : status t = COMPLETED \/ status t = FAILED \/ status t = CANCELLED) :
  exists m' t',
    fail_task tid e now sid m = (Ok true, m') /\
    dict_get tid (_tasks m') = Some t' /\
    status t' = FAILED /\ error t' = Some e /\ completed_at t' = Some now.
Proof.
  unfold fail_task. rewrite Hget. simpl.
  unfold bind. rewrite emit_m_ok. simpl.
  eexists. eexists. split; [reflexivity|].
  cbn [_tasks set_emitter set_tasks].
  rewrite dict_get_set_same. split; [reflexivity|]. simpl. auto.
Qed.

(** Claim C4: [get_ready_tasks] leaves the registry as it is and returns
    exactly the tasks that are pending and whose dependencies are all ids
    of completed tasks (none on an empty registry), sorted by descending
    priority, the tasks of one priority in registry (creation) order. *)
Theorem get_ready_tasks_spec (m : TaskManager) :
  exists ready,
    get_ready_tasks m = (Ok ready, m) /\
    (forall t, In t ready <->
       In t (map snd (_tasks m)) /\ status t = PENDING /\
    (forall d, In d (dependencies t) ->
          exists t', In (d, t') (_tasks m) /\ status t' = COMPLETED)) /\
    Sorted (fun a b => priority_value (priority b) <= priority_value (priority a)) ready /\
    (forall n : nat,
       filter (fun t => Nat.eqb (priority_value (priority t)) n) ready
       = filter (fun t => Nat.eqb (priority_value (priority t)) n)
           (filter (ready_by_spec (_tasks m)) (map snd (_tasks m)))).
Proof.
  set (key := fun t : TaskMetadata => priority_value (priority t)).
  set (base := filter (ready_by_spec (_tasks m)) (map snd (_tasks m))).
  assert (Hbase : filter (fun t => is_ready t (map fst (filter
            (fun p => TaskStatus_eqb (status (snd p)) COMPLETED) (_tasks m)))) (map snd (_tasks m))
          = base).
  { unfold base. apply filter_ext. intros t. apply is_ready_by_spec. }
  exists (py_sort_reverse key base).
  split; [unfold get_ready_tasks; rewrite Hbase; reflexivity|].
  split; [|split].
  - intros t. rewrite In_py_sort_reverse. unfold base.
    rewrite filter_In, ready_by_spec_true. tauto.
  - apply (py_sort_reverse_sorted key).
  - intros n. apply (filter_py_sort_reverse key).
Qed.

(** Claim C6: on a running task, the first [complete_task] returns true,
    records completed, the result and the end time, and emits one
    completed event; a second call returns false and leaves the whole
    registry, its emitter included, unchanged (no second event). *)
Theorem complete_task_twice (m : TaskManager) (tid : string) (t : TaskMetadata)
  (r r' : PyVal) (now sid now' sid' : nat)
  (Hget : dict_get tid (_tasks m) = Some t) (Hrun : status t = RUNNING) :
  let t1 := set_result r (set_completed_at (Some now) (set_status COMPLETED t)) in
  let ev := mkSignal sid TASK_COMPLETED now tid (agent_id t)
              [("name", PStr (name t)); ("result", r);
               ("duration_seconds", duration_val (duration_seconds t1))] None in
  let m1 := set_emitter (snd (emit ev (_emitter m))) (set_tasks (dict_set tid t1 (_tasks m)) m) in
  complete_task tid r now sid m = (Ok true, m1) /\
    dict_get tid (_tasks m1) = Some t1 /\
    status t1 = COMPLETED /\ result t1 = r /\ completed_at t1 = Some now /\
    complete_task tid r' now' sid' m1 = (Ok false, m1).
Proof.
  intros t1 ev m1.
  assert (Hg1 : dict_get tid (_tasks m1) = Some t1).
  { unfold m1. simpl. apply dict_get_set_same. }
  split.
  - unfold complete_task. rewrite Hget, Hrun. simpl.
    unfold bind. rewrite emit_m_ok. reflexivity.
  - split; [exact Hg1|]. split; [reflexivity|]. split; [reflexivity|].
    split; [reflexivity|].
    unfold complete_task. rewrite Hg1. reflexivity.
Qed.

(** Claim C10: starting a pending task succeeds and changes only its
    status (to running), its start time and, when a non-empty worker id
    is passed, its worker id; every other field of the task, every other
    task, the key order and the relationship tables are unchanged. *)
Theorem start_task_frame (m : TaskManager) (tid : string) (aid : option string)
  (now sid : nat) (t : TaskMetadata)
  (Hget : dict_get tid (_tasks m) = Some t) (Hpend : status t = PENDING) :
  exists m' t',
    start_task tid aid now sid m = (Ok true, m') /\
    dict_get tid (_tasks m') = Some t' /\
    status t' = RUNNING /\ started_at t' = Some now /\
    agent_id t' = (if py_truthy_str aid then aid else agent_id t) /\
    task_id t' = task_id t /\ name t' = name t /\ description t' = description t /\
    priority t' = priority t /\ dependencies t' = dependencies t /\
    parent_task_id t' = parent_task_id t /\ created_at t' = created_at t /\
    completed_at t' = completed_at t /\ result t' = result t /\ error t' = error t /\
    execution_mode t' = execution_mode t /\ metadata t' = metadata t /\
    (forall k, k <> tid -> dict_get k (_tasks m') = dict_get k (_tasks m)) /\
    map fst (_tasks m') = map fst (_tasks m) /\
    _parent_to_children m' = _parent_to_children m /\
    _dependencies_graph m' = _dependencies_graph m.
Proof.
  set (t1 := set_started_at (Some now) (set_status RUNNING t)).
  set (t' := if py_truthy_str aid then set_agent_id aid t1 else t1).
  unfold start_task. rewrite Hget, Hpend. simpl. fold t1 t'.
  unfold bind. rewrite emit_m_ok. simpl.
  eexists. exists t'. split; [reflexivity|].
  simpl. rewrite dict_get_set_same. split; [reflexivity|].
  assert (Hk : map fst (dict_set tid t' (_tasks m)) = map fst (_tasks m)).
  { apply dict_set_keys. rewrite Hget. discriminate. }
  unfold t', t1. destruct (py_truthy_str aid); simpl;
    (split; [reflexivity|]); (split; [reflexivity|]); (split; [reflexivity|]);
    repeat (split; [reflexivity|]);
    (split; [intros k Hne; apply dict_get_set_other; exact Hne|]);
    auto.
Qed.

End TasksClaims.

Module OrchestratorClaims.
Import Signals Tasks Orchestrator OrchestratorSpec SignalsFacts TasksFacts.

Section Claims.
Variable W : Type.
Variable call_func : nat -> list PyVal -> list (string * PyVal) -> ST W PyVal.

Lemma start_task_ok tid aid now sid (m : TaskManager) :
  exists b, start_task tid aid now sid m = (Ok b, snd (start_task tid aid now sid m)).
Proof.
  unfold start_task. destruct (dict_get tid (_tasks m)) as [t|]; [|eexists; reflexivity].
  destruct (negb (TaskStatus_eqb (status t) PENDING)); [eexists; reflexivity|].
  unfold bind. rewrite emit_m_ok. eexists; reflexivity.
Qed.
Lemma complete_task_ok tid r now sid (m : TaskManager) :
  exists b, complete_task tid r now sid m = (Ok b, snd (complete_task tid r now sid m)).
Proof.
  unfold complete_task. destruct (dict_get tid (_tasks m)) as [t|]; [|eexists; reflexivity].
  destruct (negb (TaskStatus_eqb (status t) RUNNING)); [eexists; reflexivity|].
  unfold bind. rewrite emit_m_ok. eexists; reflexivity.
Qed.
Lemma fail_task_ok tid e now sid (m : TaskManager) :
  exists b, fail_task tid e now sid m = (Ok b, snd (fail_task tid e now sid m)).
Proof.
  unfold fail_task. destruct (dict_get tid (_tasks m)) as [t|]; [|eexists; reflexivity].
  unfold bind. rewrite emit_m_ok. eexists; reflexivity.
Qed.

Lemma set_mgr_same (s : OState W) : set_mgr W (o_mgr W s) s = s.
Proof. destruct s. reflexivity. Qed.

(** Claim C1 (as amended): on a task whose [_task_func] is a callable and
    whose stored arguments unpack and bind, [execute_task] calls
    [start_task] and does not consult its outcome: the callable is invoked
    whether or not the start succeeded (no "task not runnable" outcome
    exists); when it returns, [complete_task] is called and the value
    returned; when it raises, [fail_task] is called with the message and
    the exception is re-raised.  An unknown id or a task without a truthy
    [_task_func] raises [ValueError], and stored keyword arguments naming
    [self], [task_id] or [task_func] raise [TypeError] at the executor
    call; in these three cases nothing runs and the state is unchanged. *)
Theorem execute_task_ignores_start_result (s : OState W) (tid : string) (t : TaskMetadata)
  (n : nat) (a : list PyVal) (k : list (string * PyVal))
  (Hget : dict_get tid (_tasks (o_mgr W s)) = Some t)
  (Hf : meta_get "_task_func" PNone (metadata t) = PFunc n)
  (Ha : unpack_args (meta_get "_task_args" (PTuple []) (metadata t)) = Ok a)
  (Hk : unpack_kwargs (meta_get "_task_kwargs" (PDict []) (metadata t)) = Ok k)
  (Hnc : executor_kwargs_clash k = None) :
  (let c := o_clock W s in
   let m1 := snd (start_task tid None c c (o_mgr W s)) in
   let w1 := snd (call_func n a k (o_world W s)) in
   execute_task W call_func tid s =
     match fst (call_func n a k (o_world W s)) with
     | Ok v => (Ok v, mkO W (snd (complete_task tid v (S c) (S c) m1)) w1 (S (S c))
                        (o_futures W s) (o_pool_down W s))
     | Raise ty e => (Raise ty e, mkO W (snd (fail_task tid e (S c) (S c) m1)) w1 (S (S c))
                                   (o_futures W s) (o_pool_down W s))
     end) /\
  (forall tid', dict_get tid' (_tasks (o_mgr W s)) = None ->
     execute_task W call_func tid' s = (Raise "ValueError" ("Task " ++ tid' ++ " not found"), s)) /\
  (forall tid' t', dict_get tid' (_tasks (o_mgr W s)) = Some t' ->
     py_truthy (meta_get "_task_func" PNone (metadata t')) = false ->
     execute_task W call_func tid' s
     = (Raise "ValueError" ("No task function defined for " ++ tid'), s)) /\
  (forall tid' t' a' k' name, dict_get tid' (_tasks (o_mgr W s)) = Some t' ->
     py_truthy (meta_get "_task_func" PNone (metadata t')) = true ->
     unpack_args (meta_get "_task_args" (PTuple []) (metadata t')) = Ok a' ->
     unpack_kwargs (meta_get "_task_kwargs" (PDict []) (metadata t')) = Ok k' ->
     executor_kwargs_clash k' = Some name ->
     execute_task W call_func tid' s
     = (Raise "TypeError"
          ("TaskExecutor.execute_task() got multiple values for argument '" ++ name ++ "'"), s)).
Proof.
  split; [|split; [|split]].
  - intros c m1 w1.
    unfold execute_task, reg, zoom, get_task, gets, bind at 1. simpl.
    rewrite Hget, Hf. simpl. rewrite Ha, Hk.
    unfold call_executor. rewrite Hnc.
    unfold executor_execute_task, reg, zoom, get_task, gets, bind at 1. simpl.
    rewrite Hget.
    unfold try_except, bind, draw, ret, raise. simpl.
    destruct (start_task_ok tid None c c (o_mgr W s)) as [b Hb]. fold c. rewrite Hb. fold m1.
    unfold py_call, zoom. simpl.
    destruct (call_func n a k (o_world W s)) as [[v|ty e] w] eqn:Hc; simpl in w1; unfold w1; simpl.
    + destruct (complete_task_ok tid v (S c) (S c) m1) as [b' Hb']. rewrite Hb'. reflexivity.
    + destruct (fail_task_ok tid e (S c) (S c) m1) as [b' Hb']. rewrite Hb'. reflexivity.
  - intros tid' Hg'.
    unfold execute_task, reg, zoom, get_task, gets, bind. simpl. rewrite Hg'.
    rewrite set_mgr_same. reflexivity.
  - intros tid' t' Hg' Hf'.
    unfold execute_task, reg, zoom, get_task, gets, bind. simpl. rewrite Hg', Hf'.
    rewrite set_mgr_same. reflexivity.
  - intros tid' t' a' k' name Hg' Hf' Ha' Hk' Hc'.
    unfold execute_task, reg, zoom, get_task, gets, bind. simpl. rewrite Hg', Hf'. simpl.
    rewrite Ha', Hk'. unfold call_executor. rewrite Hc'.
    rewrite set_mgr_same. reflexivity.
Qed.

Lemma sequential_loop_cons tid rest acc s :
  sequential_loop W call_func (tid :: rest) acc s =
  match execute_task W call_func tid s with
  | (Ok v, s') => sequential_loop W call_func rest (dict_set tid v acc) s'
  | (Raise _ _, s') => (Ok acc, s')
  end.
Proof.
  simpl. unfold bind at 1, try_except, bind at 1, ret.
  destruct (execute_task W call_func tid s) as [[v|ty e] s']; reflexivity.
Qed.

Lemma assign_all_cons tid ids v vs acc :
  assign_all (tid :: ids) (v :: vs) acc = assign_all ids vs (dict_set tid v acc).
Proof. reflexivity. Qed.

Lemma dict_get_set {V} (k k' : string) (v : V) (d : list (string * V)) :
  dict_get k' (dict_set k v d) = if String.eqb k' k then Some v else dict_get k' d.
Proof.
  destruct (String.eqb_spec k' k) as [->|Hne].
  - apply dict_get_set_same.
  - apply dict_get_set_other. exact Hne.
Qed.

Lemma assign_all_keys pre vs acc k :
  length vs = length pre ->
  (dict_get k (assign_all pre vs acc) <> None <-> In k pre \/ dict_get k acc <> None).
Proof.
  revert vs acc. induction pre as [|p pre IH]; intros [|v vs] acc Hl; simpl in Hl; try discriminate.
  - simpl. tauto.
  - rewrite assign_all_cons, IH by lia. rewrite dict_get_set.
    destruct (String.eqb_spec k p) as [->|Hne]; simpl.
    + split; [intros _; left; left; reflexivity|intros _; right; discriminate].
    + split; intros [H|H]; try tauto.
      destruct H as [H|H]; [congruence|tauto].
Qed.

Lemma sequential_loop_spec ids acc s :
  exists pre vs s1,
    runs_in_order W call_func pre s vs s1 /\ length vs = length pre /\
    ((pre = ids /\ sequential_loop W call_func ids acc s = (Ok (assign_all pre vs acc), s1)) \/
     (exists fid later ty e s2,
        ids = pre ++ fid :: later /\
        execute_task W call_func fid s1 = (Raise ty e, s2) /\
        sequential_loop W call_func ids acc s = (Ok (assign_all pre vs acc), s2))).
Proof.
  revert acc s. induction ids as [|tid rest IH]; intros acc s.
  - exists [], [], s. split; [constructor|]. split; [reflexivity|].
    left. split; reflexivity.
  - rewrite sequential_loop_cons.
    destruct (execute_task W call_func tid s) as [[v|ty e] s'] eqn:He.
    + destruct (IH (dict_set tid v acc) s') as (pre & vs & s1 & Hr & Hl & Hcase).
      exists (tid :: pre), (v :: vs), s1.
      split; [econstructor; eassumption|]. split; [simpl; lia|].
      rewrite assign_all_cons.
      destruct Hcase as [[-> Hloop]|(fid & later & ty & e & s2 & Hids & Hf & Hloop)].
      * left. split; [reflexivity|exact Hloop].
      * right. exists fid, later, ty, e, s2.
        split; [rewrite Hids; reflexivity|]. split; assumption.
    + exists [], [], s. split; [constructor|]. split; [reflexivity|].
      right. exists tid, rest, ty, e, s'. split; [reflexivity|]. split; [exact He|reflexivity].
Qed.

(** Claim C5: [execute_tasks_sequential ids] runs a prefix [pre] of [ids]
    one task after the other, each returning; either that is all of [ids],
    or the next task raises and nothing after it runs (the final state is
    the one that task left). The map returned holds exactly the results of
    [pre], keyed by their ids. *)
Theorem execute_tasks_sequential_stops_at_first_failure (ids : list string) (s : OState W) :
  exists pre vs s1,
    runs_in_order W call_func pre s vs s1 /\
    (forall k, dict_get k (assign_all pre vs []) <> None <-> In k pre) /\
    ((pre = ids /\
      execute_tasks_sequential W call_func ids s = (Ok (assign_all pre vs []), s1)) \/
     (exists fid later ty e s2,
        ids = pre ++ fid :: later /\
        execute_task W call_func fid s1 = (Raise ty e, s2) /\
        execute_tasks_sequential W call_func ids s = (Ok (assign_all pre vs []), s2))).
Proof.
  destruct (sequential_loop_spec ids [] s) as (pre & vs & s1 & Hr & Hl & Hcase).
  exists pre, vs, s1. split; [exact Hr|]. split.
  - intros k. rewrite assign_all_keys by exact Hl. simpl. tauto.
  - exact Hcase.
Qed.

Lemma dict_get_map {V U} (f : V -> U) (k : string) (d : list (string * V)) :
  dict_get k (map (fun p => (fst p, f (snd p))) d) = option_map f (dict_get k d).
Proof.
  induction d as [|[k0 v0] d IH]; simpl; [reflexivity|].
  destruct (String.eqb k k0); [reflexivity|exact IH].
Qed.

Lemma meta_view_set (m : TaskManager) (k : string) (t t' : TaskMetadata) :
  dict_get k (_tasks m) = Some t -> metadata t' = metadata t ->
  map (fun p => (fst p, metadata (snd p))) (dict_set k t' (_tasks m)) = meta_view m.
Proof.
  unfold meta_view. intros Hg Hm. induction (_tasks m) as [|[k0 v0] d IH]; simpl in *.
  - discriminate.
  - destruct (String.eqb_spec k k0) as [->|Hne]; simpl.
    + inversion Hg. subst. rewrite Hm. reflexivity.
    + f_equal. apply IH. exact Hg.
Qed.

Lemma start_task_meta tid aid now sid (m : TaskManager) :
  meta_view (snd (start_task tid aid now sid m)) = meta_view m.
Proof.
  unfold start_task. destruct (dict_get tid (_tasks m)) as [t|] eqn:Hg; [|reflexivity].
  destruct (negb (TaskStatus_eqb (status t) PENDING)); [reflexivity|].
  unfold bind. rewrite emit_m_ok. simpl. unfold meta_view at 1. simpl.
  apply (meta_view_set m tid t). exact Hg.
  destruct (py_truthy_str aid); reflexivity.
Qed.

Lemma complete_task_meta tid r now sid (m : TaskManager) :
  meta_view (snd (complete_task tid r now sid m)) = meta_view m.
Proof.
  unfold complete_task. destruct (dict_get tid (_tasks m)) as [t|] eqn:Hg; [|reflexivity].
  destruct (negb (TaskStatus_eqb (status t) RUNNING)); [reflexivity|].
  unfold bind. rewrite emit_m_ok. simpl. unfold meta_view at 1. simpl.
  apply (meta_view_set m tid t); [exact Hg|reflexivity].
Qed.

Lemma fail_task_meta tid e now sid (m : TaskManager) :
  meta_view (snd (fail_task tid e now sid m)) = meta_view m.
Proof.
  unfold fail_task. destruct (dict_get tid (_tasks m)) as [t|] eqn:Hg; [|reflexivity].
  unfold bind. rewrite emit_m_ok. simpl. unfold meta_view at 1. simpl.
  apply (meta_view_set m tid t); [exact Hg|reflexivity].
Qed.

(** A job changes the statuses of the registry, never its ids or the
    metadata holding the bound callables. *)
Lemma executor_keeps_meta tid f a k (s : OState W) :
  meta_view (o_mgr W (snd (executor_execute_task W call_func tid f a k s))) = meta_view (o_mgr W s).
Proof.
  unfold executor_execute_task, reg, zoom, get_task, gets, bind at 1. simpl.
  destruct (dict_get tid (_tasks (o_mgr W s))) as [t|]; [|reflexivity].
  unfold try_except, bind, draw, ret, raise. simpl.
  destruct (start_task_ok tid None (o_clock W s) (o_clock W s) (o_mgr W s)) as [b Hb].
  rewrite Hb.
  set (m1 := snd (start_task tid None (o_clock W s) (o_clock W s) (o_mgr W s))).
  assert (Hm1 : meta_view m1 = meta_view (o_mgr W s)) by apply start_task_meta.
  unfold py_call, zoom. destruct f; simpl;
    try (destruct (fail_task_ok tid "object is not callable" (S (o_clock W s)) (S (o_clock W s)) m1) as [b' Hb'];
         rewrite Hb'; simpl; rewrite fail_task_meta; exact Hm1).
  destruct (call_func f a k (o_world W s)) as [[v|ty e] w]; simpl.
  - destruct (complete_task_ok tid v (S (o_clock W s)) (S (o_clock W s)) m1) as [b' Hb'].
    rewrite Hb'. simpl. rewrite complete_task_meta. exact Hm1.
  - destruct (fail_task_ok tid e (S (o_clock W s)) (S (o_clock W s)) m1) as [b' Hb'].
    rewrite Hb'. simpl. rewrite fail_task_meta. exact Hm1.
Qed.


Lemma args_unpackable_get (m : TaskManager) (tid : string) (md : list (string * PyVal)) :
  args_unpackable m -> dict_get tid (meta_view m) = Some md ->
  (exists a, unpack_args (meta_get "_task_args" (PTuple []) md) = Ok a) /\
  (exists k, unpack_kwargs (meta_get "_task_kwargs" (PDict []) md) = Ok k).
Proof.
  unfold args_unpackable. intros Hall Hg.
  apply dict_get_In in Hg. rewrite forallb_forall in Hall.
  apply Hall in Hg. simpl in Hg. apply andb_prop in Hg. destruct Hg as [Ha Hk].
  split.
  - destruct (unpack_args (meta_get "_task_args" (PTuple []) md)); [eauto|discriminate].
  - destruct (unpack_kwargs (meta_get "_task_kwargs" (PDict []) md)); [eauto|discriminate].
Qed.

(** A job leaves the orchestrator's futures and its pool as they were. *)
Lemma executor_keeps_pool tid f a k (s : OState W) :
  o_futures W (snd (executor_execute_task W call_func tid f a k s)) = o_futures W s /\
  o_pool_down W (snd (executor_execute_task W call_func tid f a k s)) = o_pool_down W s.
Proof.
  set (m1 := snd (start_task tid None (o_clock W s) (o_clock W s) (o_mgr W s))).
  split; unfold executor_execute_task, reg, zoom, get_task, gets, bind at 1; simpl;
    (destruct (dict_get tid (_tasks (o_mgr W s))) as [t|]; [|reflexivity]);
    unfold try_except, bind, draw, ret, raise; simpl;
    destruct (start_task_ok tid None (o_clock W s) (o_clock W s) (o_mgr W s)) as [b Hb];
    rewrite Hb; fold m1;
    unfold py_call, zoom; destruct f; simpl;
    try (destruct (fail_task_ok tid "object is not callable" (S (o_clock W s)) (S (o_clock W s)) m1)
           as [b' Hb']; rewrite Hb'; reflexivity);
    destruct (call_func f a k (o_world W s)) as [[v|ty e] w]; simpl;
    [destruct (complete_task_ok tid v (S (o_clock W s)) (S (o_clock W s)) m1) as [b' Hb']
    |destruct (fail_task_ok tid e (S (o_clock W s)) (S (o_clock W s)) m1) as [b' Hb']
    |destruct (complete_task_ok tid v (S (o_clock W s)) (S (o_clock W s)) m1) as [b' Hb']
    |destruct (fail_task_ok tid e (S (o_clock W s)) (S (o_clock W s)) m1) as [b' Hb']];
    rewrite Hb'; reflexivity.
Qed.

Lemma call_executor_keeps tid f a k (s : OState W) :
  meta_view (o_mgr W (snd (call_executor W call_func tid f a k s))) = meta_view (o_mgr W s) /\
  o_futures W (snd (call_executor W call_func tid f a k s)) = o_futures W s /\
  o_pool_down W (snd (call_executor W call_func tid f a k s)) = o_pool_down W s.
Proof.
  unfold call_executor. destruct (executor_kwargs_clash k); [split; [|split]; reflexivity|].
  split; [apply executor_keeps_meta|apply executor_keeps_pool].
Qed.





End Claims.
End OrchestratorClaims.

(** * Concrete instances *)
Module Instances.
Import Signals Tasks Orchestrator OrchestratorSpec SpecSide Fixtures.

Lemma history_capped_most_recent_first_witness :
  (0 < 3)%Z /\
  (let signals := [mkSignal 0 TASK_STARTED 0 "t" None [] None;
                   mkSignal 1 TASK_COMPLETED 1 "t" None [] None] in
   let em := snd (emit_all signals (mkEmitter [] [] 3)) in
   fst (emit_all signals (mkEmitter [] [] 3)) = Ok tt /\
   _signal_history em = lastn (Nat.min (length signals) (Z.to_nat 3)) signals /\
   length (_signal_history em) = Nat.min (length signals) (Z.to_nat 3) /\
   (forall L : Z, (1 <= L)%Z ->
      get_history None None L em
      = (Ok (rev (lastn (Nat.min (Z.to_nat L) (Nat.min (length signals) (Z.to_nat 3)))
                        signals)), em))).
Proof.
  split; [lia|].
  apply (SignalsClaims.history_capped_most_recent_first 3 []
           [mkSignal 0 TASK_STARTED 0 "t" None [] None;
            mkSignal 1 TASK_COMPLETED 1 "t" None [] None]).
  lia.
Defined.

Lemma fail_task_overrides_terminal_status_witness :
  dict_get "a" (_tasks (manager_of [bound_task "a" COMPLETED 0]))
    = Some (bound_task "a" COMPLETED 0) /\
  (status (bound_task "a" COMPLETED 0) = COMPLETED \/
   status (bound_task "a" COMPLETED 0) = FAILED \/
   status (bound_task "a" COMPLETED 0) = CANCELLED) /\
  (exists m' t',
     fail_task "a" "late error" 5 5 (manager_of [bound_task "a" COMPLETED 0]) = (Ok true, m') /\
     dict_get "a" (_tasks m') = Some t' /\
     status t' = FAILED /\ error t' = Some "late error" /\ completed_at t' = Some 5).
Proof.
  split; [reflexivity|]. split; [left; reflexivity|].
  apply (TasksClaims.fail_task_overrides_terminal_status
           (manager_of [bound_task "a" COMPLETED 0]) "a" "late error" 5 5
           (bound_task "a" COMPLETED 0)).
  - reflexivity.
  - left. reflexivity.
Defined.

Lemma complete_task_twice_witness :
  dict_get "a" (_tasks (manager_of [bound_task "a" RUNNING 0])) = Some (bound_task "a" RUNNING 0) /\
  status (bound_task "a" RUNNING 0) = RUNNING /\
  (let m := manager_of [bound_task "a" RUNNING 0] in
   let t := bound_task "a" RUNNING 0 in
   let t1 := set_result (PInt 7) (set_completed_at (Some 4) (set_status COMPLETED t)) in
   let ev := mkSignal 9 TASK_COMPLETED 4 "a" (agent_id t)
               [("name", PStr (name t)); ("result", PInt 7);
                ("duration_seconds", duration_val (duration_seconds t1))] None in
   let m1 := set_emitter (snd (emit ev (_emitter m))) (set_tasks (dict_set "a" t1 (_tasks m)) m) in
   complete_task "a" (PInt 7) 4 9 m = (Ok true, m1) /\
   dict_get "a" (_tasks m1) = Some t1 /\
   status t1 = COMPLETED /\ result t1 = PInt 7 /\ completed_at t1 = Some 4 /\
   complete_task "a" (PInt 8) 6 10 m1 = (Ok false, m1)).
Proof.
  split; [reflexivity|]. split; [reflexivity|].
  apply (TasksClaims.complete_task_twice (manager_of [bound_task "a" RUNNING 0]) "a"
           (bound_task "a" RUNNING 0) (PInt 7) (PInt 8) 4 9 6 10); reflexivity.
Defined.

Lemma start_task_frame_witness :
  dict_get "a" (_tasks (manager_of [bound_task "a" PENDING 0])) = Some (bound_task "a" PENDING 0) /\
  status (bound_task "a" PENDING 0) = PENDING /\
  (let m := manager_of [bound_task "a" PENDING 0] in
   let t := bound_task "a" PENDING 0 in
   exists m' t',
    start_task "a" (Some "w1") 3 3 m = (Ok true, m') /\
    dict_get "a" (_tasks m') = Some t' /\
    status t' = RUNNING /\ started_at t' = Some 3 /\
    agent_id t' = (if py_truthy_str (Some "w1") then Some "w1" else agent_id t) /\
    task_id t' = task_id t /\ name t' = name t /\ description t' = description t /\
    priority t' = priority t /\ dependencies t' = dependencies t /\
    parent_task_id t' = parent_task_id t /\ created_at t' = created_at t /\
    completed_at t' = completed_at t /\ result t' = result t /\ error t' = error t /\
    execution_mode t' = execution_mode t /\ metadata t' = metadata t /\
    (forall k, k <> "a" -> dict_get k (_tasks m') = dict_get k (_tasks m)) /\
    map fst (_tasks m') = map fst (_tasks m) /\
    _parent_to_children m' = _parent_to_children m /\
    _dependencies_graph m' = _dependencies_graph m).
Proof.
  split; [reflexivity|]. split; [reflexivity|].
  apply (TasksClaims.start_task_frame (manager_of [bound_task "a" PENDING 0]) "a" (Some "w1")
           3 3 (bound_task "a" PENDING 0)); reflexivity.
Defined.

Lemma execute_task_ignores_start_result_witness :
  let s := state_of [bound_task "a" COMPLETED 0] in
  dict_get "a" (_tasks (o_mgr _ s)) = Some (bound_task "a" COMPLETED 0) /\
  meta_get "_task_func" PNone (metadata (bound_task "a" COMPLETED 0)) = PFunc 0 /\
  unpack_args (meta_get "_task_args" (PTuple []) (metadata (bound_task "a" COMPLETED 0))) = Ok [] /\
  unpack_kwargs (meta_get "_task_kwargs" (PDict []) (metadata (bound_task "a" COMPLETED 0))) = Ok [] /\
  executor_kwargs_clash [] = None /\
  ((let c := o_clock _ s in
    let m1 := snd (start_task "a" None c c (o_mgr _ s)) in
    let w1 := snd (log_call 0 [] [] (o_world _ s)) in
    execute_task _ log_call "a" s =
      match fst (log_call 0 [] [] (o_world _ s)) with
      | Ok v => (Ok v, mkO _ (snd (complete_task "a" v (S c) (S c) m1)) w1 (S (S c))
                         (o_futures _ s) (o_pool_down _ s))
      | Raise ty e => (Raise ty e, mkO _ (snd (fail_task "a" e (S c) (S c) m1)) w1 (S (S c))
                                    (o_futures _ s) (o_pool_down _ s))
      end) /\
   (forall tid', dict_get tid' (_tasks (o_mgr _ s)) = None ->
      execute_task _ log_call tid' s = (Raise "ValueError" ("Task " ++ tid' ++ " not found"), s)) /\
   (forall tid' t', dict_get tid' (_tasks (o_mgr _ s)) = Some t' ->
      py_truthy (meta_get "_task_func" PNone (metadata t')) = false ->
      execute_task _ log_call tid' s
      = (Raise "ValueError" ("No task function defined for " ++ tid'), s)) /\
   (forall tid' t' a' k' name, dict_get tid' (_tasks (o_mgr _ s)) = Some t' ->
      py_truthy (meta_get "_task_func" PNone (metadata t')) = true ->
      unpack_args (meta_get "_task_args" (PTuple []) (metadata t')) = Ok a' ->
      unpack_kwargs (meta_get "_task_kwargs" (PDict []) (metadata t')) = Ok k' ->
      executor_kwargs_clash k' = Some name ->
      execute_task _ log_call tid' s
      = (Raise "TypeError"
           ("TaskExecutor.execute_task() got multiple values for argument '" ++ name ++ "'"), s))).
Proof.
  intros s. split; [reflexivity|]. split; [reflexivity|].
  split; [reflexivity|]. split; [reflexivity|]. split; [reflexivity|].
  apply (OrchestratorClaims.execute_task_ignores_start_result (list string) log_call s "a"
           (bound_task "a" COMPLETED 0) 0 [] []); reflexivity.
Defined.


(** Claim C1, counterexample: a task already completed cannot start, yet
    [execute_task] invokes its callable (the log gains "A") and returns
    its value instead of reporting the task not runnable. *)
Lemma execute_task_runs_callable_of_completed_task :
  let s := state_of [bound_task "a" COMPLETED 0] in
  fst (start_task "a" None 0 0 (o_mgr _ s)) = Ok false /\
  fst (execute_task _ log_call "a" s) = Ok (PInt 1) /\
  o_world _ (snd (execute_task _ log_call "a" s)) = ["A"].
Proof. vm_compute. split; [reflexivity|split; reflexivity]. Qed.


End Instances.

Module SignalsExtra.
Import Signals SpecSide SignalsFacts.

Lemma SignalType_eqb_eq (a b : SignalType) : SignalType_eqb a b = true <-> a = b.
Proof. destruct a, b; simpl; split; congruence. Qed.

Lemma rev_skipn {A} (k : nat) (l : list A) :
  rev (skipn k l) = firstn (length l - k) (rev l).
Proof.
  pose proof (firstn_skipn k l) as Hl.
  replace (length l - k) with (length (rev (skipn k l)))
    by (rewrite length_rev, length_skipn; reflexivity).
  rewrite <- Hl at 3. rewrite rev_app_distr, firstn_app, Nat.sub_diag, firstn_all.
  simpl. symmetry. apply app_nil_r.
Qed.

Lemma py_slice_whole {A} (i : Z) (l : list A) :
  (i <= - Z.of_nat (length l) \/ i = 0)%Z -> py_slice_from i l = l.
Proof.
  intros Hi. unfold py_slice_from.
  destruct (Z.ltb_spec i 0).
  - replace (Z.to_nat (Z.max 0 (Z.of_nat (length l) + i))) with 0 by lia. reflexivity.
  - replace (Z.to_nat (Z.min i (Z.of_nat (length l)))) with 0 by lia. reflexivity.
Qed.

Lemma py_slice_pos {A} (k : nat) (l : list A) :
  py_slice_from (Z.of_nat k) l = skipn k l.
Proof.
  unfold py_slice_from. rewrite (proj2 (Z.ltb_ge _ 0)) by lia.
  destruct (Nat.le_gt_cases k (length l)).
  - f_equal. lia.
  - rewrite !skipn_all2 by lia. reflexivity.
Qed.

Lemma lastn_snoc {A} (k : nat) (l : list A) (x : A) :
  0 < k -> lastn k (l ++ [x]) = lastn (k - 1) l ++ [x].
Proof.
  intros Hk. unfold lastn. rewrite length_app. simpl.
  rewrite skipn_app.
  replace (length l + 1 - k - length l) with 0 by lia.
  f_equal. f_equal. lia.
Qed.

(** The history after one [emit], for any cap and any history before. *)
Lemma emit_history_pos (signal : SignalPayload) (em : SignalEmitter) :
  (0 < _max_history em)%Z ->
  _signal_history (snd (emit signal em))
  = lastn (Z.to_nat (_max_history em)) (_signal_history em ++ [signal]).
Proof.
  intros Hpos. rewrite emit_state. simpl.
  destruct (Z.ltb_spec (_max_history em) (Z.of_nat (length (_signal_history em ++ [signal])))).
  - apply py_slice_neg. exact Hpos.
  - symmetry. apply lastn_all. lia.
Qed.

Lemma emit_all_keeps (signals : list SignalPayload) (em : SignalEmitter) :
  _subscribers (snd (emit_all signals em)) = _subscribers em.
Proof.
  revert em. induction signals as [|s rest IH]; intros em; [reflexivity|].
  simpl. unfold bind. rewrite emit_unfold, emit_result.
  rewrite IH. apply emit_keeps_subscribers.
Qed.

Lemma concat_repeat_snoc {A} (x : list A) (k : nat) :
  concat (repeat x k) ++ x = concat (repeat x (S k)).
Proof.
  induction k as [|k IH]; simpl.
  - symmetry. apply app_nil_r.
  - rewrite <- app_assoc, IH. reflexivity.
Qed.

Lemma setup_iter (k : nat) (em : SignalEmitter) :
  Nat.iter k (fun e => snd (Orchestrator._setup_signal_handlers e)) em
  = mkEmitter (_subscribers em ++
                 concat (repeat [mkSubscription "orchestrator_completion" [TASK_COMPLETED]
                                   Orchestrator.on_task_completed None;
                                 mkSubscription "orchestrator_failure" [TASK_FAILED]
                                   Orchestrator.on_task_failed None] k))
              (_signal_history em) (_max_history em).
Proof.
  induction k as [|k IH].
  - simpl. rewrite app_nil_r. destruct em. reflexivity.
  - rewrite Nat.iter_succ, IH. unfold Orchestrator._setup_signal_handlers, bind, subscribe, ret.
    unfold set_subscribers. simpl. f_equal.
    rewrite <- !app_assoc. f_equal. exact (concat_repeat_snoc _ k).
Qed.

(** * Extra properties *)

(** Extra: after one [emit] with a positive cap [H], the history is the
    last [H - 1] entries of the history before, whatever its length,
    followed by the signal: it holds at most [H] entries and ends with the
    newest one.  With a cap of 0 it is never trimmed, since
    [history[-0:]] is the whole list. *)
Theorem emit_history_window (signal : SignalPayload) (em : SignalEmitter) :
  let h' := _signal_history (snd (emit signal em)) in
  ((0 < _max_history em)%Z ->
     h' = lastn (Z.to_nat (_max_history em) - 1) (_signal_history em) ++ [signal] /\
     length h' <= Z.to_nat (_max_history em)) /\
  (_max_history em = 0%Z -> h' = _signal_history em ++ [signal]).
Proof.
  intros h'. split.
  - intros Hpos. unfold h'. rewrite emit_history_pos by exact Hpos.
    rewrite lastn_snoc by lia. split; [reflexivity|].
    rewrite length_app, length_lastn. simpl. lia.
  - intros H0. unfold h'. rewrite emit_state. simpl. rewrite H0.
    destruct (Z.ltb 0 _); [|reflexivity].
    apply py_slice_whole. right. reflexivity.
Qed.

(** Extra: [get_history] with limit 0 returns every matching signal, as a
    limit as large as the history does ([history[-0:]] is the whole list),
    and a negative limit [-k] drops the [k] oldest matches instead of
    returning nothing.  The matches are the stored signals of the given
    type, and of the given task unless the task filter is empty. *)
Theorem get_history_limits (ft : option SignalType) (tf : option string) (em : SignalEmitter) :
  exists l,
    get_history ft tf (Z.of_nat (length (_signal_history em))) em = (Ok l, em) /\
    get_history ft tf 0 em = (Ok l, em) /\
    (forall k : nat, get_history ft tf (- Z.of_nat k) em = (Ok (firstn (length l - k) l), em)) /\
    (forall s, In s l <-> In s (_signal_history em) /\
       (forall ty, ft = Some ty -> signal_type s = ty) /\
       (forall tid, tf = Some tid -> tid <> "" -> sp_task_id s = tid)).
Proof.
  unfold get_history. cbv zeta.
  match goal with
  | |- exists l, (Ok (rev (py_slice_from _ ?f)), _) = _ /\ _ => set (F := f)
  end.
  assert (Hlen : length F <= length (_signal_history em)).
  { unfold F. destruct ft; destruct (py_truthy_str tf);
      repeat (etransitivity; [apply filter_length_le|]); reflexivity. }
  exists (rev F). split; [|split; [|split]].
  - rewrite py_slice_whole by lia. reflexivity.
  - rewrite py_slice_whole by (right; reflexivity). reflexivity.
  - intros k. rewrite Z.opp_involutive, py_slice_pos, rev_skipn, length_rev. reflexivity.
  - intros s. rewrite <- in_rev. unfold F.
    destruct tf as [tid|]; simpl.
    + destruct (String.eqb_spec tid "") as [->|Hne]; simpl.
      * destruct ft as [ty|]; [rewrite filter_In|]; split.
        -- intros [Hin Ht]. apply SignalType_eqb_eq in Ht.
           split; [exact Hin|]. split; [intros ty' Hty; inversion Hty; congruence|].
           intros tid Htid Hne. inversion Htid. congruence.
        -- intros [Hin [Ht _]]. split; [exact Hin|]. apply SignalType_eqb_eq. apply Ht. reflexivity.
        -- intros Hin. split; [exact Hin|]. split; [discriminate|].
           intros tid Htid Hne. inversion Htid. congruence.
        -- intros [Hin _]. exact Hin.
      * rewrite filter_In. destruct ft as [ty|]; [rewrite filter_In|]; split.
        -- intros [[Hin Ht] Htid]. apply SignalType_eqb_eq in Ht. apply String.eqb_eq in Htid.
           split; [exact Hin|]. split; [intros ty' Hty; inversion Hty; congruence|].
           intros tid' Htid' _. inversion Htid'. congruence.
        -- intros [Hin [Ht Htid]]. split; [split; [exact Hin|]|].
           ++ apply SignalType_eqb_eq. apply Ht. reflexivity.
           ++ apply String.eqb_eq. apply Htid; [reflexivity|exact Hne].
        -- intros [Hin Htid]. apply String.eqb_eq in Htid.
           split; [exact Hin|]. split; [discriminate|].
           intros tid' Htid' _. inversion Htid'. congruence.
        -- intros [Hin [_ Htid]]. split; [exact Hin|].
           apply String.eqb_eq. apply Htid; [reflexivity|exact Hne].
    + destruct ft as [ty|]; [rewrite filter_In|]; split.
      * intros [Hin Ht]. apply SignalType_eqb_eq in Ht.
        split; [exact Hin|]. split; [intros ty' Hty; inversion Hty; congruence|].
        intros tid Htid. discriminate.
      * intros [Hin [Ht _]]. split; [exact Hin|]. apply SignalType_eqb_eq. apply Ht. reflexivity.
      * intros Hin. split; [exact Hin|]. split; [discriminate|]. intros tid Htid. discriminate.
      * intros [Hin _]. exact Hin.
Qed.

(** Extra: [clear_history] empties the history, so [get_history] then
    returns nothing for any filters and limit, and keeps the subscribers
    and the cap: with a positive cap, after further emissions the history
    holds only the signals emitted since (the last [H] of them). *)
Theorem clear_history_then_emit (em : SignalEmitter) (signals : list SignalPayload)
  (Hcap : (0 < _max_history em)%Z) :
  let em1 := snd (clear_history em) in
  let em2 := snd (emit_all signals em1) in
  fst (clear_history em) = Ok tt /\
  (forall ft tf L, get_history ft tf L em1 = (Ok [], em1)) /\
  _subscribers em2 = _subscribers em /\
  _signal_history em2 = lastn (Z.to_nat (_max_history em)) signals.
Proof.
  intros em1 em2. split; [reflexivity|]. split.
  - intros ft tf L. unfold get_history. simpl.
    destruct ft; destruct (py_truthy_str tf); unfold py_slice_from; simpl;
      rewrite skipn_nil; reflexivity.
  - split.
    + unfold em2. rewrite emit_all_keeps. reflexivity.
    + destruct (emit_all_history signals em1) as [_ [_ Hh]]; [exact Hcap|simpl; lia|].
      exact Hh.
Qed.

(** Extra: [_setup_signal_handlers] appends one completion and one failure
    subscription each time an orchestrator is built on the emitter, and a
    single [shutdown] removes every subscription under those two ids, the
    handlers of every other orchestrator on the same emitter included,
    leaving the other subscribers and the history as they were. *)
Theorem shutdown_removes_every_orchestrator_handler (k : nat) (em : SignalEmitter) :
  let em_k := Nat.iter k (fun e => snd (Orchestrator._setup_signal_handlers e)) em in
  _subscribers em_k
  = _subscribers em ++
      concat (repeat [mkSubscription "orchestrator_completion" [TASK_COMPLETED]
                        Orchestrator.on_task_completed None;
                      mkSubscription "orchestrator_failure" [TASK_FAILED]
                        Orchestrator.on_task_failed None] k) /\
  _signal_history em_k = _signal_history em /\
  Orchestrator.shutdown em_k
  = (Ok tt, set_subscribers
              (filter (fun sub => negb (String.eqb (subscriber_id sub) "orchestrator_failure"))
                 (filter (fun sub => negb (String.eqb (subscriber_id sub) "orchestrator_completion"))
                    (_subscribers em))) em).
Proof.
  intros em_k. unfold em_k. rewrite setup_iter. simpl.
  split; [reflexivity|]. split; [reflexivity|].
  unfold Orchestrator.shutdown, bind, unsubscribe, ret. simpl.
  unfold set_subscribers. simpl. f_equal. f_equal.
  rewrite !filter_app.
  assert (Hc : filter (fun sub => negb (String.eqb (subscriber_id sub) "orchestrator_completion"))
      (concat (repeat [mkSubscription "orchestrator_completion" [TASK_COMPLETED]
                        Orchestrator.on_task_completed None;
                      mkSubscription "orchestrator_failure" [TASK_FAILED]
                        Orchestrator.on_task_failed None] k))
      = repeat (mkSubscription "orchestrator_failure" [TASK_FAILED] Orchestrator.on_task_failed None) k).
  { induction k as [|k IH]; [reflexivity|]. simpl. rewrite IH. reflexivity. }
  rewrite Hc.
  replace (filter _ (repeat _ k)) with (@nil Subscription)
    by (clear Hc; induction k as [|k IH]; [reflexivity|exact IH]).
  rewrite !app_nil_r. reflexivity.
Qed.

End SignalsExtra.
Module TasksExtra.
Import Signals Tasks SpecSide SignalsFacts TasksFacts SignalsExtra.

Lemma dict_set_new {V} (k : string) (v : V) (d : list (string * V)) :
  dict_get k d = None -> dict_set k v d = d ++ [(k, v)].
Proof.
  induction d as [|[k0 v0] d IH]; simpl; [reflexivity|].
  destruct (String.eqb k k0); [discriminate|]. intros H. rewrite IH by exact H. reflexivity.
Qed.

Lemma flat_map_ext_in {A B} (f g : A -> list B) (l : list A) :
  (forall x, In x l -> f x = g x) -> flat_map f l = flat_map g l.
Proof.
  induction l as [|x l IH]; simpl; intros H; [reflexivity|].
  rewrite (H x (or_introl eq_refl)), IH by (intros y Hy; apply H; right; exact Hy).
  reflexivity.
Qed.

(** * Extra properties *)

(** Extra: [create_task] returns the id it was given and registers under
    it a pending task carrying the given fields, no start or end time, no
    error and no result; every other id keeps its task; a fresh id is
    listed last by [get_all_tasks]; dependencies, when any, are recorded
    in the dependency graph; without a parent (or with an empty one) the
    parent map is unchanged; the emitter is left alone. *)
Theorem create_task_registers (new_id : string) (now : nat) (nm ds : string)
  (pr : TaskPriority) (aid par : option string) (deps : list string)
  (mode : TaskExecutionMode) (md : list (string * PyVal)) (m : TaskManager) :
  let t := mkTask new_id nm ds pr PENDING aid par deps now None None None PNone mode md in
  let r := create_task new_id now nm ds pr aid par deps mode md m in
  fst r = Ok new_id /\
  fst (get_task new_id (snd r)) = Ok (Some t) /\
  (forall k, k <> new_id -> fst (get_task k (snd r)) = fst (get_task k m)) /\
  (dict_get new_id (_tasks m) = None ->
     fst (get_all_tasks (snd r)) = Ok (map snd (_tasks m) ++ [t])) /\
  (deps <> [] -> dict_get new_id (_dependencies_graph (snd r)) = Some deps) /\
  (py_truthy_str par = false -> _parent_to_children (snd r) = _parent_to_children m) /\
  _emitter (snd r) = _emitter m.
Proof.
  intros t r. unfold r, create_task, get_task, gets, get_all_tasks. simpl.
  split; [reflexivity|]. split; [rewrite dict_get_set_same; reflexivity|].
  split; [intros k Hk; rewrite dict_get_set_other by congruence; reflexivity|].
  split; [intros Hn; rewrite dict_set_new by exact Hn; rewrite map_app; reflexivity|].
  split; [destruct deps; [congruence|intros _; apply dict_get_set_same]|].
  split; [intros Hp; rewrite Hp; reflexivity|reflexivity].
Qed.

(** Extra: creating a task with a fresh id under a non-empty parent id
    appends it to that parent's children: [get_children_tasks] then
    returns the children it returned before followed by the new task. *)
Theorem create_task_records_child (new_id : string) (now : nat) (nm ds : string)
  (pr : TaskPriority) (aid : option string) (p : string) (deps : list string)
  (mode : TaskExecutionMode) (md : list (string * PyVal)) (m : TaskManager)
  (Hp : p <> "")
  (Hfresh : dict_get new_id (_tasks m) = None)
  (Hnew : ~ In new_id (match dict_get p (_parent_to_children m) with
                       | Some l => l
                       | None => []
                       end)) :
  let t := mkTask new_id nm ds pr PENDING aid (Some p) deps now None None None PNone mode md in
  let m' := snd (create_task new_id now nm ds pr aid (Some p) deps mode md m) in
  exists l,
    get_children_tasks p m = (Ok l, m) /\
    get_children_tasks p m' = (Ok (l ++ [t]), m').
Proof.
  intros t m'. eexists. split; [reflexivity|].
  unfold m', create_task, get_children_tasks, gets. simpl.
  apply String.eqb_neq in Hp. rewrite Hp. simpl.
  rewrite dict_get_set_same.
  set (cl := match dict_get p (_parent_to_children m) with Some l => l | None => [] end) in *.
  replace (match dict_get p (_parent_to_children m) with
           | Some l => l ++ [new_id] | None => [new_id] end) with (cl ++ [new_id])
    by (unfold cl; destruct (dict_get p (_parent_to_children m)); reflexivity).
  rewrite flat_map_app. simpl. rewrite dict_get_set_same, app_nil_r.
  f_equal. f_equal. f_equal. apply flat_map_ext_in.
  intros x Hx. rewrite dict_get_set_other; [reflexivity|].
  intros ->. exact (Hnew Hx).
Qed.

(** Extra: [start_task] succeeds exactly on a task that exists and is
    pending; otherwise it returns false and leaves the registry, the
    emitter and its history untouched. *)
Theorem start_task_guard (tid : string) (aid : option string) (now sid : nat) (m : TaskManager) :
  (fst (start_task tid aid now sid m) = Ok true <->
     exists t, dict_get tid (_tasks m) = Some t /\ status t = PENDING) /\
  (fst (start_task tid aid now sid m) <> Ok true -> start_task tid aid now sid m = (Ok false, m)).
Proof.
  unfold start_task. destruct (dict_get tid (_tasks m)) as [t|] eqn:Hg.
  - destruct (TaskStatus_eqb (status t) PENDING) eqn:Hs; simpl.
    + unfold bind. rewrite emit_m_ok. simpl. apply TaskStatus_eqb_eq in Hs.
      split; [split; [intros _; exists t; auto|reflexivity]|congruence].
    + split; [|reflexivity]. split; [discriminate|].
      intros [t' [Ht' Hp]]. inversion Ht'. subst. rewrite Hp in Hs. discriminate.
  - simpl. split; [|reflexivity]. split; [discriminate|]. intros [t' [Ht' _]]. discriminate.
Qed.

(** Extra: [complete_task] succeeds exactly on a task that exists and is
    running; otherwise it returns false and leaves the registry, the
    emitter and its history untouched. *)
Theorem complete_task_guard (tid : string) (r : PyVal) (now sid : nat) (m : TaskManager) :
  (fst (complete_task tid r now sid m) = Ok true <->
     exists t, dict_get tid (_tasks m) = Some t /\ status t = RUNNING) /\
  (fst (complete_task tid r now sid m) <> Ok true -> complete_task tid r now sid m = (Ok false, m)).
Proof.
  unfold complete_task. destruct (dict_get tid (_tasks m)) as [t|] eqn:Hg.
  - destruct (TaskStatus_eqb (status t) RUNNING) eqn:Hs; simpl.
    + unfold bind. rewrite emit_m_ok. simpl. apply TaskStatus_eqb_eq in Hs.
      split; [split; [intros _; exists t; auto|reflexivity]|congruence].
    + split; [|reflexivity]. split; [discriminate|].
      intros [t' [Ht' Hp]]. inversion Ht'. subst. rewrite Hp in Hs. discriminate.
  - simpl. split; [|reflexivity]. split; [discriminate|]. intros [t' [Ht' _]]. discriminate.
Qed.

(** Extra: [fail_task] succeeds on every task that exists, whatever its
    status, and returns false leaving the registry and the emitter
    untouched only on an unknown id. *)
Theorem fail_task_guard (tid e : string) (now sid : nat) (m : TaskManager) :
  (fst (fail_task tid e now sid m) = Ok true <-> dict_get tid (_tasks m) <> None) /\
  (dict_get tid (_tasks m) = None -> fail_task tid e now sid m = (Ok false, m)).
Proof.
  unfold fail_task. destruct (dict_get tid (_tasks m)) as [t|] eqn:Hg.
  - unfold bind. rewrite emit_m_ok. simpl. split; [split; [congruence|reflexivity]|congruence].
  - simpl. split; [split; [discriminate|congruence]|reflexivity].
Qed.

(** Extra: with a positive history cap [H], each transition that succeeds
    records its event as the newest history entry, after the last [H - 1]
    entries from before: [TASK_STARTED] for [start_task], [TASK_COMPLETED]
    carrying the result for [complete_task], [TASK_FAILED] carrying the
    error for [fail_task], each with the task id and the transition time. *)
Theorem transition_event_recorded (tid : string) (aid : option string) (r : PyVal)
  (e : string) (now sid : nat) (m : TaskManager)
  (Hcap : (0 < _max_history (_emitter m))%Z) :
  let old := lastn (Z.to_nat (_max_history (_emitter m)) - 1) (_signal_history (_emitter m)) in
  (forall m', start_task tid aid now sid m = (Ok true, m') ->
     exists ev, _signal_history (_emitter m') = old ++ [ev] /\
       signal_type ev = TASK_STARTED /\ sp_task_id ev = tid /\ timestamp ev = now) /\
  (forall m', complete_task tid r now sid m = (Ok true, m') ->
     exists ev, _signal_history (_emitter m') = old ++ [ev] /\
       signal_type ev = TASK_COMPLETED /\ sp_task_id ev = tid /\ timestamp ev = now /\
       dict_get "result" (data ev) = Some r) /\
  (forall m', fail_task tid e now sid m = (Ok true, m') ->
     exists ev, _signal_history (_emitter m') = old ++ [ev] /\
       signal_type ev = TASK_FAILED /\ sp_task_id ev = tid /\ timestamp ev = now /\
       sp_error ev = Some e).
Proof.
  intros old. split; [|split].
  - intros m' H. unfold start_task in H.
    destruct (dict_get tid (_tasks m)) as [t|]; [|discriminate].
    destruct (negb (TaskStatus_eqb (status t) PENDING)); [discriminate|].
    unfold bind in H. rewrite emit_m_ok in H. simpl in H. inversion H. subst m'. clear H.
    simpl. eexists. rewrite emit_history_pos by exact Hcap. rewrite lastn_snoc by lia.
    split; [reflexivity|]. auto.
  - intros m' H. unfold complete_task in H.
    destruct (dict_get tid (_tasks m)) as [t|]; [|discriminate].
    destruct (negb (TaskStatus_eqb (status t) RUNNING)); [discriminate|].
    unfold bind in H. rewrite emit_m_ok in H. simpl in H. inversion H. subst m'. clear H.
    simpl. eexists. rewrite emit_history_pos by exact Hcap. rewrite lastn_snoc by lia.
    split; [reflexivity|]. auto.
  - intros m' H. unfold fail_task in H.
    destruct (dict_get tid (_tasks m)) as [t|]; [|discriminate].
    unfold bind in H. rewrite emit_m_ok in H. simpl in H. inversion H. subst m'. clear H.
    simpl. eexists. rewrite emit_history_pos by exact Hcap. rewrite lastn_snoc by lia.
    split; [reflexivity|]. auto.
Qed.

Lemma status_counts (l : list TaskMetadata) :
  length (filter (fun t => TaskStatus_eqb (status t) PENDING) l)
  + length (filter (fun t => TaskStatus_eqb (status t) RUNNING) l)
  + length (filter (fun t => TaskStatus_eqb (status t) COMPLETED) l)
  + length (filter (fun t => TaskStatus_eqb (status t) FAILED) l)
  + length (filter (fun t => TaskStatus_eqb (status t) CANCELLED) l) = length l.
Proof.
  induction l as [|t l IH]; [reflexivity|].
  simpl. destruct (status t); simpl; lia.
Qed.

Lemma pending_exists (l : list (string * TaskMetadata)) :
  existsb (fun p => TaskStatus_eqb (status (snd p)) PENDING
                    || TaskStatus_eqb (status (snd p)) RUNNING) l = true <->
  filter (fun t => TaskStatus_eqb (status t) PENDING) (map snd l) <> [] \/
  filter (fun t => TaskStatus_eqb (status t) RUNNING) (map snd l) <> [].
Proof.
  induction l as [|[k t] l IH]; simpl.
  - split; [discriminate|]. intros [H|H]; congruence.
  - destruct (status t); simpl; try (rewrite IH; reflexivity);
      split; intros; try reflexivity; [left|right]; discriminate.
Qed.

(** Extra: the lists [get_tasks_by_status] returns for the five statuses
    split the registry: their lengths add up to the number of tasks
    [get_all_tasks] returns, and [has_pending_tasks] holds exactly when
    the pending or the running list is non-empty. *)
Theorem tasks_by_status_partition (m : TaskManager) :
  exists lp lr lc lf lx la,
    get_tasks_by_status PENDING m = (Ok lp, m) /\
    get_tasks_by_status RUNNING m = (Ok lr, m) /\
    get_tasks_by_status COMPLETED m = (Ok lc, m) /\
    get_tasks_by_status FAILED m = (Ok lf, m) /\
    get_tasks_by_status CANCELLED m = (Ok lx, m) /\
    get_all_tasks m = (Ok la, m) /\
    length lp + length lr + length lc + length lf + length lx = length la /\
    (has_pending_tasks m = (Ok true, m) <-> lp <> [] \/ lr <> []).
Proof.
  do 6 eexists. do 6 (split; [reflexivity|]). split; [apply status_counts|].
  unfold has_pending_tasks, gets. rewrite <- pending_exists.
  split; [intros H; inversion H; reflexivity|intros ->; reflexivity].
Qed.


End TasksExtra.

Module OrchestratorExtra.
Import Signals Tasks Orchestrator OrchestratorSpec SignalsFacts TasksFacts TasksExtra.

Section Extra.
Variable W : Type.
Variable call_func : nat -> list PyVal -> list (string * PyVal) -> ST W PyVal.

Lemma set_mgr_id (s : OState W) : set_mgr W (o_mgr W s) s = s.
Proof. destruct s. reflexivity. Qed.

Lemma start_pending (tid : string) (aid : option string) (now sid : nat) (m : TaskManager)
  (t : TaskMetadata) :
  dict_get tid (_tasks m) = Some t -> status t = PENDING ->
  exists t', start_task tid aid now sid m = (Ok true, snd (start_task tid aid now sid m)) /\
    dict_get tid (_tasks (snd (start_task tid aid now sid m))) = Some t' /\
    status t' = RUNNING /\ metadata t' = metadata t.
Proof.
  intros Hg Hs. unfold start_task. rewrite Hg, Hs. simpl.
  unfold bind. rewrite emit_m_ok. simpl. rewrite dict_get_set_same.
  eexists. split; [reflexivity|]. split; [reflexivity|].
  destruct (py_truthy_str aid); simpl; auto.
Qed.

Lemma start_not_pending (tid : string) (aid : option string) (now sid : nat) (m : TaskManager)
  (t : TaskMetadata) :
  dict_get tid (_tasks m) = Some t -> status t <> PENDING ->
  start_task tid aid now sid m = (Ok false, m).
Proof.
  intros Hg Hs. unfold start_task. rewrite Hg.
  destruct (TaskStatus_eqb (status t) PENDING) eqn:He; [|reflexivity].
  apply TaskStatus_eqb_eq in He. contradiction.
Qed.

Lemma complete_running (tid : string) (r : PyVal) (now sid : nat) (m : TaskManager)
  (t : TaskMetadata) :
  dict_get tid (_tasks m) = Some t -> status t = RUNNING ->
  exists t', complete_task tid r now sid m = (Ok true, snd (complete_task tid r now sid m)) /\
    dict_get tid (_tasks (snd (complete_task tid r now sid m))) = Some t' /\
    status t' = COMPLETED /\ result t' = r.
Proof.
  intros Hg Hs. unfold complete_task. rewrite Hg, Hs. simpl.
  unfold bind. rewrite emit_m_ok. simpl. rewrite dict_get_set_same.
  eexists. split; [reflexivity|]. auto.
Qed.

Lemma complete_not_running (tid : string) (r : PyVal) (now sid : nat) (m : TaskManager)
  (t : TaskMetadata) :
  dict_get tid (_tasks m) = Some t -> status t <> RUNNING ->
  complete_task tid r now sid m = (Ok false, m).
Proof.
  intros Hg Hs. unfold complete_task. rewrite Hg.
  destruct (TaskStatus_eqb (status t) RUNNING) eqn:He; [|reflexivity].
  apply TaskStatus_eqb_eq in He. contradiction.
Qed.

Lemma fail_existing (tid e : string) (now sid : nat) (m : TaskManager) (t : TaskMetadata) :
  dict_get tid (_tasks m) = Some t ->
  exists t', fail_task tid e now sid m = (Ok true, snd (fail_task tid e now sid m)) /\
    dict_get tid (_tasks (snd (fail_task tid e now sid m))) = Some t' /\
    status t' = FAILED /\ error t' = Some e.
Proof.
  intros Hg. unfold fail_task. rewrite Hg.
  unfold bind. rewrite emit_m_ok. simpl. rewrite dict_get_set_same.
  eexists. split; [reflexivity|]. auto.
Qed.

(** [execute_task] on a task with a bound callable, step by step. *)
Lemma execute_task_steps (s : OState W) (tid : string) (t : TaskMetadata)
  (n : nat) (a : list PyVal) (k : list (string * PyVal))
  (Hget : dict_get tid (_tasks (o_mgr W s)) = Some t)
  (Hf : meta_get "_task_func" PNone (metadata t) = PFunc n)
  (Ha : unpack_args (meta_get "_task_args" (PTuple []) (metadata t)) = Ok a)
  (Hk : unpack_kwargs (meta_get "_task_kwargs" (PDict []) (metadata t)) = Ok k)
  (Hnc : executor_kwargs_clash k = None) :
  let c := o_clock W s in
  let m1 := snd (start_task tid None c c (o_mgr W s)) in
  let w1 := snd (call_func n a k (o_world W s)) in
  execute_task W call_func tid s =
    match fst (call_func n a k (o_world W s)) with
    | Ok v => (Ok v, mkO W (snd (complete_task tid v (S c) (S c) m1)) w1 (S (S c))
                       (o_futures W s) (o_pool_down W s))
    | Raise ty e => (Raise ty e, mkO W (snd (fail_task tid e (S c) (S c) m1)) w1 (S (S c))
                                  (o_futures W s) (o_pool_down W s))
    end.
Proof.
  intros c m1 w1.
  unfold execute_task, reg, zoom, get_task, gets, bind at 1. simpl.
  rewrite Hget, Hf. simpl. rewrite Ha, Hk.
  unfold call_executor. rewrite Hnc.
  unfold executor_execute_task, reg, zoom, get_task, gets, bind at 1. simpl.
  rewrite Hget.
  unfold try_except, bind, draw, ret, raise. simpl.
  destruct (OrchestratorClaims.start_task_ok tid None c c (o_mgr W s)) as [b Hb].
  fold c. rewrite Hb. fold m1.
  unfold py_call, zoom. simpl.
  destruct (call_func n a k (o_world W s)) as [[v|ty e] w] eqn:Hc; simpl in w1; unfold w1; simpl.
  - destruct (OrchestratorClaims.complete_task_ok tid v (S c) (S c) m1) as [b' Hb'].
    rewrite Hb'. reflexivity.
  - destruct (OrchestratorClaims.fail_task_ok tid e (S c) (S c) m1) as [b' Hb'].
    rewrite Hb'. reflexivity.
Qed.

(** [execute_task] on a task whose stored keyword arguments name a
    parameter of the executor: the call raises before anything runs. *)
Lemma execute_task_clash (s : OState W) (tid : string) (t : TaskMetadata)
  (n : nat) (a : list PyVal) (k : list (string * PyVal)) (name : string)
  (Hget : dict_get tid (_tasks (o_mgr W s)) = Some t)
  (Hf : meta_get "_task_func" PNone (metadata t) = PFunc n)
  (Ha : unpack_args (meta_get "_task_args" (PTuple []) (metadata t)) = Ok a)
  (Hk : unpack_kwargs (meta_get "_task_kwargs" (PDict []) (metadata t)) = Ok k)
  (Hc : executor_kwargs_clash k = Some name) :
  execute_task W call_func tid s
  = (Raise "TypeError"
       ("TaskExecutor.execute_task() got multiple values for argument '" ++ name ++ "'"), s).
Proof.
  unfold execute_task, reg, zoom, get_task, gets, bind. simpl.
  rewrite Hget, Hf. simpl. rewrite Ha, Hk. unfold call_executor. rewrite Hc.
  rewrite set_mgr_id. reflexivity.
Qed.

Lemma orch_create_task_state (new_id nm : string) (n : nat) (args : list PyVal)
  (kwargs : list (string * PyVal)) (ds : string) (pr : TaskPriority) (aid par : option string)
  (deps : list string) (mode : TaskExecutionMode) (md : list (string * PyVal)) (s : OState W) :
  exists s1 t,
    orch_create_task W new_id nm (PFunc n) args kwargs ds pr aid par deps mode md s = (Ok new_id, s1) /\
    o_world W s1 = o_world W s /\
    dict_get new_id (_tasks (o_mgr W s1)) = Some t /\
    status t = PENDING /\
    meta_get "_task_func" PNone (metadata t) = PFunc n /\
    meta_get "_task_args" (PTuple []) (metadata t) = PTuple args /\
    meta_get "_task_kwargs" (PDict []) (metadata t) = PDict kwargs.
Proof.
  unfold orch_create_task, bind, draw, reg, zoom, create_task, get_task, gets, modify, ret.
  simpl. rewrite dict_get_set_same. simpl.
  do 2 eexists. split; [reflexivity|]. split; [reflexivity|].
  split; [simpl; rewrite dict_get_set_same; reflexivity|].
  split; [reflexivity|]. unfold meta_get. simpl.
  rewrite (dict_get_set_other "_task_kwargs" "_task_func") by discriminate.
  rewrite (dict_get_set_other "_task_args" "_task_func") by discriminate.
  rewrite dict_get_set_same. split; [reflexivity|].
  rewrite (dict_get_set_other "_task_kwargs" "_task_args") by discriminate.
  rewrite dict_get_set_same. split; [reflexivity|].
  rewrite dict_get_set_same. reflexivity.
Qed.

(** * Extra properties *)

(** Extra: a task made by the orchestrator's [create_task] with a callable
    runs through [execute_task] with exactly the stored positional and
    keyword arguments: the call's outcome is what [execute_task] gives
    back, and afterwards [get_task_status] reports the task completed with
    the returned value as its result, or failed with the exception's
    message as its error.  When a keyword argument is named [self],
    [task_id] or [task_func], [execute_task] raises [TypeError] instead,
    the callable is not called and the task stays pending. *)
Theorem created_task_runs_to_completion (new_id nm : string) (n : nat) (args : list PyVal)
  (kwargs : list (string * PyVal)) (ds : string) (pr : TaskPriority) (aid par : option string)
  (deps : list string) (mode : TaskExecutionMode) (md : list (string * PyVal)) (s : OState W) :
  let r1 := orch_create_task W new_id nm (PFunc n) args kwargs ds pr aid par deps mode md s in
  let r2 := execute_task W call_func new_id (snd r1) in
  fst r1 = Ok new_id /\
  match executor_kwargs_clash kwargs with
  | Some name =>
      r2 = (Raise "TypeError"
              ("TaskExecutor.execute_task() got multiple values for argument '" ++ name ++ "'"),
            snd r1) /\
      fst (get_task_status W new_id (snd r2)) = Ok (Some PENDING)
  | None =>
      fst r2 = fst (call_func n args kwargs (o_world W s)) /\
      o_world W (snd r2) = snd (call_func n args kwargs (o_world W s)) /\
      match fst (call_func n args kwargs (o_world W s)) with
      | Ok v =>
          fst (get_task_status W new_id (snd r2)) = Ok (Some COMPLETED) /\
          option_map result (dict_get new_id (_tasks (o_mgr W (snd r2)))) = Some v
      | Raise _ e =>
          fst (get_task_status W new_id (snd r2)) = Ok (Some FAILED) /\
          option_map error (dict_get new_id (_tasks (o_mgr W (snd r2)))) = Some (Some e)
      end
  end.
Proof.
  intros r1 r2.
  destruct (orch_create_task_state new_id nm n args kwargs ds pr aid par deps mode md s)
    as [s1 [t [Hc [Hw [Hg [Hs [Hf [Ha Hk]]]]]]]].
  unfold r2, r1. rewrite Hc. simpl. split; [reflexivity|].
  destruct (executor_kwargs_clash kwargs) as [name|] eqn:Hnc.
  { assert (Ha' : unpack_args (meta_get "_task_args" (PTuple []) (metadata t)) = Ok args)
      by (rewrite Ha; reflexivity).
    assert (Hk' : unpack_kwargs (meta_get "_task_kwargs" (PDict []) (metadata t)) = Ok kwargs)
      by (rewrite Hk; reflexivity).
    rewrite (execute_task_clash s1 new_id t n args kwargs name Hg Hf Ha' Hk' Hnc).
    split; [reflexivity|].
    unfold get_task_status, reg, zoom, get_task, gets, bind, ret. simpl.
    rewrite Hg. simpl. rewrite Hs. reflexivity. }
  rewrite (execute_task_steps s1 new_id t n args kwargs Hg Hf) by (rewrite ?Ha, ?Hk, ?Hnc; reflexivity).
  rewrite Hw.
  destruct (start_pending new_id None (o_clock W s1) (o_clock W s1) (o_mgr W s1) t Hg Hs)
    as [t1 [_ [Hg1 [Hs1 _]]]].
  destruct (call_func n args kwargs (o_world W s)) as [[v|ty e] w]; simpl.
  - destruct (complete_running new_id v (S (o_clock W s1)) (S (o_clock W s1)) _ t1 Hg1 Hs1)
      as [t2 [_ [Hg2 [Hs2 Hr2]]]].
    split; [reflexivity|]. split; [reflexivity|].
    unfold get_task_status, reg, zoom, get_task, gets, bind, ret. simpl.
    rewrite Hg2. simpl. rewrite Hs2, Hr2. split; reflexivity.
  - destruct (fail_existing new_id e (S (o_clock W s1)) (S (o_clock W s1)) _ t1 Hg1)
      as [t2 [_ [Hg2 [Hs2 He2]]]].
    split; [reflexivity|]. split; [reflexivity|].
    unfold get_task_status, reg, zoom, get_task, gets, bind, ret. simpl.
    rewrite Hg2. simpl. rewrite Hs2, He2. split; reflexivity.
Qed.

(** Extra: executing a task that has already completed, whose stored
    keyword arguments name none of [self], [task_id] and [task_func], runs
    its callable again and returns the new value, but the registry and
    [self._futures] are left exactly as they were: the task keeps its
    first result and status, and no event is emitted, since both
    [start_task] and [complete_task] refuse it. *)
Theorem execute_completed_task_reruns_callable (s : OState W) (tid : string) (t : TaskMetadata)
  (n : nat) (a : list PyVal) (k : list (string * PyVal)) (v : PyVal) (w' : W)
  (Hget : dict_get tid (_tasks (o_mgr W s)) = Some t)
  (Hdone : status t = COMPLETED)
  (Hf : meta_get "_task_func" PNone (metadata t) = PFunc n)
  (Ha : unpack_args (meta_get "_task_args" (PTuple []) (metadata t)) = Ok a)
  (Hk : unpack_kwargs (meta_get "_task_kwargs" (PDict []) (metadata t)) = Ok k)
  (Hnc : executor_kwargs_clash k = None)
  (Hcall : call_func n a k (o_world W s) = (Ok v, w')) :
  execute_task W call_func tid s
  = (Ok v, mkO W (o_mgr W s) w' (S (S (o_clock W s))) (o_futures W s) (o_pool_down W s)).
Proof.
  rewrite (execute_task_steps s tid t n a k Hget Hf Ha Hk Hnc). rewrite Hcall. simpl.
  rewrite (start_not_pending tid None _ _ _ t Hget) by congruence. simpl.
  rewrite (complete_not_running tid v _ _ _ t Hget) by congruence. reflexivity.
Qed.

(** Extra: [execute_task_group] on a parent none of whose recorded
    children is in the registry (or that has none) runs nothing and
    returns an empty map, in either mode. *)
Theorem execute_task_group_without_children (s : OState W) (p : string)
  (mode : TaskExecutionMode)
  (Hgone : forall l c, dict_get p (_parent_to_children (o_mgr W s)) = Some l -> In c l ->
           dict_get c (_tasks (o_mgr W s)) = None) :
  execute_task_group W call_func p mode s = (Ok [], s).
Proof.
  unfold execute_task_group, reg, zoom, get_children_tasks, gets, bind. simpl.
  destruct (dict_get p (_parent_to_children (o_mgr W s))) as [l|] eqn:Hp.
  - replace (flat_map _ l) with (@nil TaskMetadata).
    + rewrite set_mgr_id. reflexivity.
    + assert (Hl : forall c, In c l -> dict_get c (_tasks (o_mgr W s)) = None)
        by (intros c Hc; exact (Hgone l c eq_refl Hc)).
      clear Hp Hgone. induction l as [|c l IH]; [reflexivity|].
      simpl. rewrite (Hl c (or_introl eq_refl)). simpl.
      apply IH. intros c' Hc. apply Hl. right. exact Hc.
  - simpl. rewrite set_mgr_id. reflexivity.
Qed.

Lemma run_loop_idle (s : OState W) (fuel : nat)
  (Hready : fst (get_ready_tasks (o_mgr W s)) = Ok []) :
  run_loop W call_func fuel s = (Ok tt, s).
Proof.
  assert (Hr : get_ready_tasks (o_mgr W s) = (Ok [], o_mgr W s)) by (rewrite <- Hready; reflexivity).
  induction fuel as [|fuel IH]; [reflexivity|].
  simpl. unfold bind at 1, reg at 1, zoom at 1. rewrite Hr. rewrite set_mgr_id.
  unfold bind, reg, zoom, has_pending_tasks, gets. simpl. rewrite set_mgr_id.
  destruct (existsb _ _); simpl; [exact IH|reflexivity].
Qed.

(** Extra: when no task is ready, [run_until_complete] changes nothing
    however many iterations it is given: it stops at once when nothing is
    pending or running, and otherwise spins through all its iterations
    without running any task, as for a pending task whose dependency has
    failed. *)
Theorem run_until_complete_idle (s : OState W) (N : Z)
  (Hready : fst (get_ready_tasks (o_mgr W s)) = Ok []) :
  run_until_complete W call_func N s = (Ok tt, s).
Proof. unfold run_until_complete. apply run_loop_idle. exact Hready. Qed.

End Extra.
End OrchestratorExtra.

Module ProgressExtra.
Import Signals Tasks Orchestrator OrchestratorSpec SignalsFacts TasksFacts TasksExtra OrchestratorExtra.

Lemma insert_by_perm {A} (key : A -> nat) (x : A) (l : list A) :
  Permutation (insert_by key x l) (x :: l).
Proof.
  induction l as [|y l IH]; simpl; [reflexivity|].
  destruct (Nat.leb (key x) (key y)); [reflexivity|].
  eapply perm_trans; [apply perm_skip; exact IH|apply perm_swap].
Qed.

Lemma stable_sort_perm {A} (key : A -> nat) (l : list A) :
  Permutation (stable_sort key l) l.
Proof.
  induction l as [|x l IH]; simpl; [reflexivity|].
  eapply perm_trans; [apply insert_by_perm|apply perm_skip; exact IH].
Qed.

Lemma py_sort_reverse_perm {A} (key : A -> nat) (l : list A) :
  Permutation (py_sort_reverse key l) l.
Proof.
  unfold py_sort_reverse.
  eapply perm_trans; [apply Permutation_sym, Permutation_rev|].
  eapply perm_trans; [apply stable_sort_perm|apply Permutation_sym, Permutation_rev].
Qed.

Lemma filter_all {A} (f : A -> bool) (l : list A) :
  (forall x, In x l -> f x = true) -> filter f l = l.
Proof.
  induction l as [|x l IH]; simpl; intros H; [reflexivity|].
  rewrite (H x (or_introl eq_refl)), IH; [reflexivity|].
  intros y Hy. apply H. right. exact Hy.
Qed.

Lemma filter_none {A} (f : A -> bool) (l : list A) :
  (forall x, In x l -> f x = false) -> filter f l = [].
Proof.
  induction l as [|x l IH]; simpl; intros H; [reflexivity|].
  rewrite (H x (or_introl eq_refl)). apply IH.
  intros y Hy. apply H. right. exact Hy.
Qed.

Lemma dict_get_nodup {V} (k : string) (v : V) (d : list (string * V)) :
  NoDup (map fst d) -> In (k, v) d -> dict_get k d = Some v.
Proof.
  induction d as [|[k0 v0] d IH]; simpl; intros Hnd Hin; [contradiction|].
  inversion Hnd as [|? ? Hnin Hnd']; subst.
  destruct Hin as [Heq|Hin].
  - inversion Heq. subst. rewrite String.eqb_refl. reflexivity.
  - destruct (String.eqb_spec k k0) as [->|Hne].
    + exfalso. apply Hnin. apply (in_map fst) in Hin. exact Hin.
    + apply IH; assumption.
Qed.

Section Progress.
Variable W : Type.
Variable call_func : nat -> list PyVal -> list (string * PyVal) -> ST W PyVal.

Lemma start_frame (tid : string) (aid : option string) (now sid : nat) (m : TaskManager) :
  (forall k, k <> tid ->
     dict_get k (_tasks (snd (start_task tid aid now sid m))) = dict_get k (_tasks m)) /\
  map fst (_tasks (snd (start_task tid aid now sid m))) = map fst (_tasks m).
Proof.
  unfold start_task. destruct (dict_get tid (_tasks m)) eqn:Hg; [|split; reflexivity].
  destruct (negb _); [split; reflexivity|].
  unfold bind. rewrite emit_m_ok. simpl. split.
  - intros k Hk. apply dict_get_set_other. congruence.
  - apply dict_set_keys. congruence.
Qed.

Lemma complete_frame (tid : string) (r : PyVal) (now sid : nat) (m : TaskManager) :
  (forall k, k <> tid ->
     dict_get k (_tasks (snd (complete_task tid r now sid m))) = dict_get k (_tasks m)) /\
  map fst (_tasks (snd (complete_task tid r now sid m))) = map fst (_tasks m).
Proof.
  unfold complete_task. destruct (dict_get tid (_tasks m)) eqn:Hg; [|split; reflexivity].
  destruct (negb _); [split; reflexivity|].
  unfold bind. rewrite emit_m_ok. simpl. split.
  - intros k Hk. apply dict_get_set_other. congruence.
  - apply dict_set_keys. congruence.
Qed.

Lemma execute_pending_ok (s : OState W) (tid : string) (t : TaskMetadata) (n : nat)
  (a : list PyVal) (kw : list (string * PyVal)) (v : PyVal) (w' : W)
  (Hget : dict_get tid (_tasks (o_mgr W s)) = Some t)
  (Hp : status t = PENDING)
  (Hf : meta_get "_task_func" PNone (metadata t) = PFunc n)
  (Ha : unpack_args (meta_get "_task_args" (PTuple []) (metadata t)) = Ok a)
  (Hk : unpack_kwargs (meta_get "_task_kwargs" (PDict []) (metadata t)) = Ok kw)
  (Hnc : executor_kwargs_clash kw = None)
  (Hcall : call_func n a kw (o_world W s) = (Ok v, w')) :
  exists s1, execute_task W call_func tid s = (Ok v, s1) /\
    (exists t', dict_get tid (_tasks (o_mgr W s1)) = Some t' /\ status t' = COMPLETED) /\
    (forall k, k <> tid -> dict_get k (_tasks (o_mgr W s1)) = dict_get k (_tasks (o_mgr W s))) /\
    map fst (_tasks (o_mgr W s1)) = map fst (_tasks (o_mgr W s)).
Proof.
  rewrite (execute_task_steps W call_func s tid t n a kw Hget Hf Ha Hk Hnc), Hcall. simpl.
  eexists. split; [reflexivity|]. simpl.
  set (c := o_clock W s).
  destruct (start_pending tid None c c (o_mgr W s) t Hget Hp) as [t1 [_ [Hg1 [Hs1 _]]]].
  destruct (complete_running tid v (S c) (S c) _ t1 Hg1 Hs1) as [t2 [_ [Hg2 [Hs2 _]]]].
  destruct (start_frame tid None c c (o_mgr W s)) as [Ho1 Hk1].
  destruct (complete_frame tid v (S c) (S c) (snd (start_task tid None c c (o_mgr W s))))
    as [Ho2 Hk2].
  split; [exists t2; auto|]. split.
  - intros k Hne. rewrite Ho2, Ho1 by exact Hne. reflexivity.
  - rewrite Hk2, Hk1. reflexivity.
Qed.

Lemma sequential_loop_completes (L : list string) (acc : list (string * PyVal)) (s : OState W) :
  NoDup L ->
  (forall tid, In tid L -> exists t n a kw,
     dict_get tid (_tasks (o_mgr W s)) = Some t /\ status t = PENDING /\
     meta_get "_task_func" PNone (metadata t) = PFunc n /\
     unpack_args (meta_get "_task_args" (PTuple []) (metadata t)) = Ok a /\
     unpack_kwargs (meta_get "_task_kwargs" (PDict []) (metadata t)) = Ok kw /\
     executor_kwargs_clash kw = None /\
     (forall w, exists v w', call_func n a kw w = (Ok v, w'))) ->
  exists acc' s', sequential_loop W call_func L acc s = (Ok acc', s') /\
    (forall tid, In tid L ->
       exists t, dict_get tid (_tasks (o_mgr W s')) = Some t /\ status t = COMPLETED) /\
    (forall k, ~ In k L -> dict_get k (_tasks (o_mgr W s')) = dict_get k (_tasks (o_mgr W s))) /\
    map fst (_tasks (o_mgr W s')) = map fst (_tasks (o_mgr W s)).
Proof.
  revert acc s. induction L as [|tid L IH]; intros acc s Hnd Hall.
  - exists acc, s. split; [reflexivity|]. split; [intros _ []|]. split; reflexivity.
  - inversion Hnd as [|? ? Hnin Hnd']; subst.
    destruct (Hall tid (or_introl eq_refl)) as [t [n [a [kw [Hg [Hp [Hf [Ha [Hk [Hnc Hc]]]]]]]]]].
    destruct (Hc (o_world W s)) as [v [w' Hcall]].
    destruct (execute_pending_ok s tid t n a kw v w' Hg Hp Hf Ha Hk Hnc Hcall)
      as [s1 [He [[t1 [Hg1 Hs1]] [Ho Hkeys]]]].
    destruct (IH (dict_set tid v acc) s1 Hnd') as [acc' [s' [Hl [Hdone [Hout Hk']]]]].
    { intros tid' Hin. destruct (Hall tid' (or_intror Hin)) as [t' [n' [a' [kw' [Hg' R]]]]].
      exists t', n', a', kw'. split; [|exact R]. rewrite Ho; [exact Hg'|].
      intros ->. contradiction. }
    exists acc', s'. split.
    + rewrite (OrchestratorClaims.sequential_loop_cons W call_func), He. exact Hl.
    + split; [|split].
      * intros x [->|Hin]; [|apply Hdone; exact Hin].
        exists t1. rewrite Hout by exact Hnin. auto.
      * intros x Hx. rewrite Hout by (intros Hin; apply Hx; right; exact Hin).
        apply Ho. intros ->. apply Hx. left. reflexivity.
      * rewrite Hk', Hkeys. reflexivity.
Qed.

Lemma run_loop_sequential_step (fuel : nat) (s : OState W) (R : list TaskMetadata) :
  get_ready_tasks (o_mgr W s) = (Ok R, o_mgr W s) -> R <> [] ->
  (forall t, In t R -> execution_mode t = SEQUENTIAL) ->
  run_loop W call_func (S fuel) s =
  match execute_tasks_sequential W call_func (map task_id R) s with
  | (Ok _, s') => run_loop W call_func fuel s'
  | (Raise ty e, s') => (Raise ty e, s')
  end.
Proof.
  intros HR Hne Hseq.
  cbn [run_loop]. unfold bind at 1, reg at 1, zoom at 1. rewrite HR, set_mgr_id.
  destruct R as [|r rs]; [contradiction|].
  rewrite (filter_none (fun t => mode_eqb (execution_mode t) PARALLEL) (r :: rs))
    by (intros t Ht; rewrite (Hseq t Ht); reflexivity).
  rewrite (filter_all (fun t => mode_eqb (execution_mode t) SEQUENTIAL) (r :: rs))
    by (intros t Ht; rewrite (Hseq t Ht); reflexivity).
  unfold bind at 1. cbn [ret].
  unfold bind at 1. unfold bind at 1.
  destruct (execute_tasks_sequential W call_func (map task_id (r :: rs)) s) as [[x|ty e] s']; reflexivity.
Qed.

Lemma has_pending_all_completed (ts : list (string * TaskMetadata)) :
  Forall (fun p => status (snd p) = COMPLETED) ts ->
  existsb (fun p => TaskStatus_eqb (status (snd p)) PENDING
                    || TaskStatus_eqb (status (snd p)) RUNNING) ts = false.
Proof.
  induction 1 as [|p ts Hp _ IH]; simpl; [reflexivity|].
  rewrite Hp, IH. reflexivity.
Qed.

(** Extra: when every task of the registry is pending, has no dependency,
    runs in sequential mode and has a bound callable that returns a value
    in every world and no stored keyword argument named [self], [task_id]
    or [task_func], and task ids are the registry keys without
    duplicates, one iteration of [run_until_complete] runs all of them:
    it returns, every task is [COMPLETED], the keys are those it started
    with, and [has_pending_tasks] is then false. *)
Theorem run_until_complete_finishes_independent_tasks (s : OState W) (N : Z)
  (HN : (1 <= N)%Z)
  (Hkeys : NoDup (map fst (_tasks (o_mgr W s))))
  (Hids : Forall (fun p => task_id (snd p) = fst p) (_tasks (o_mgr W s)))
  (Htasks : Forall (fun p =>
       status (snd p) = PENDING /\ dependencies (snd p) = [] /\
       execution_mode (snd p) = SEQUENTIAL /\
       exists n a kw,
         meta_get "_task_func" PNone (metadata (snd p)) = PFunc n /\
         unpack_args (meta_get "_task_args" (PTuple []) (metadata (snd p))) = Ok a /\
         unpack_kwargs (meta_get "_task_kwargs" (PDict []) (metadata (snd p))) = Ok kw /\
         executor_kwargs_clash kw = None /\
         (forall w, exists v w', call_func n a kw w = (Ok v, w')))
     (_tasks (o_mgr W s))) :
  exists s', run_until_complete W call_func N s = (Ok tt, s') /\
    map fst (_tasks (o_mgr W s')) = map fst (_tasks (o_mgr W s)) /\
    Forall (fun p => status (snd p) = COMPLETED) (_tasks (o_mgr W s')) /\
    fst (has_pending_tasks (o_mgr W s')) = Ok false.
Proof.
  rewrite Forall_forall in Hids, Htasks.
  set (ts := _tasks (o_mgr W s)) in *.
  set (R := py_sort_reverse (fun t => priority_value (priority t)) (map snd ts)).
  assert (HR : get_ready_tasks (o_mgr W s) = (Ok R, o_mgr W s)).
  { unfold get_ready_tasks, R. fold ts. rewrite filter_all; [reflexivity|].
    intros t Ht. apply in_map_iff in Ht. destruct Ht as [p [<- Hp]].
    destruct (Htasks p Hp) as [Hst [Hdep _]].
    unfold is_ready. rewrite Hst, Hdep. reflexivity. }
  assert (HpR : Permutation R (map snd ts)) by apply py_sort_reverse_perm.
  assert (HL : Permutation (map task_id R) (map fst ts)).
  { replace (map fst ts) with (map task_id (map snd ts)).
    - apply Permutation_map. exact HpR.
    - rewrite map_map. apply map_ext_in. intros p Hp. apply Hids. exact Hp. }
  unfold run_until_complete.
  destruct (Z.to_nat N) as [|fuel] eqn:HZ; [lia|].
  destruct R as [|r rs] eqn:HReq.
  - apply Permutation_nil in HpR. apply map_eq_nil in HpR.
    exists s. split; [apply run_loop_idle; rewrite HR; reflexivity|].
    split; [reflexivity|]. fold ts. rewrite HpR. split; [apply Forall_nil|].
    unfold has_pending_tasks, gets. simpl. fold ts. rewrite HpR. reflexivity.
  - rewrite <- HReq in *.
    destruct (sequential_loop_completes (map task_id R) [] s) as
      [acc' [s' [Hloop [Hdone [_ Hk']]]]].
    { eapply Permutation_NoDup; [apply Permutation_sym, HL|exact Hkeys]. }
    { intros tid Hin. apply (Permutation_in _ HL) in Hin.
      apply in_map_iff in Hin. destruct Hin as [p [<- Hp]].
      destruct (Htasks p Hp) as [Hst [_ [_ [n [a [kw [Hf [Ha [Hk [Hnc Hc]]]]]]]]]].
      exists (snd p), n, a, kw. repeat split; try assumption.
      apply dict_get_nodup; [exact Hkeys|]. destruct p; exact Hp. }
    assert (Hall : Forall (fun p => status (snd p) = COMPLETED) (_tasks (o_mgr W s'))).
    { apply Forall_forall. intros [k t] Hin.
      assert (HkL : In k (map task_id R)).
      { apply (Permutation_in _ (Permutation_sym HL)). fold ts in Hk'. rewrite <- Hk'.
        apply in_map_iff. exists (k, t). auto. }
      destruct (Hdone k HkL) as [t' [Hg Hc]].
      rewrite (dict_get_nodup k t) in Hg; [injection Hg as ->; exact Hc| |exact Hin].
      rewrite Hk'. exact Hkeys. }
    assert (Hidle : fst (get_ready_tasks (o_mgr W s')) = Ok []).
    { unfold get_ready_tasks. simpl. rewrite filter_none; [reflexivity|].
      intros t Ht. apply in_map_iff in Ht. destruct Ht as [p [<- Hp]].
      rewrite Forall_forall in Hall. unfold is_ready. rewrite (Hall p Hp). reflexivity. }
    exists s'. split; [|split; [exact Hk'|split; [exact Hall|]]].
    + rewrite (run_loop_sequential_step fuel s R HR).
      * unfold execute_tasks_sequential. rewrite Hloop. apply run_loop_idle. exact Hidle.
      * rewrite HReq. discriminate.
      * intros t Ht. apply (Permutation_in _ HpR) in Ht.
        apply in_map_iff in Ht. destruct Ht as [p [<- Hp]]. apply Htasks. exact Hp.
    + unfold has_pending_tasks, gets. simpl. rewrite has_pending_all_completed by exact Hall.
      reflexivity.
Qed.
End Progress.
End ProgressExtra.

Module FuturesExtra.
Import Signals Tasks Orchestrator OrchestratorSpec OrchestratorClaims.

Section Futures.
Variable W : Type.
Variable call_func : nat -> list PyVal -> list (string * PyVal) -> ST W PyVal.

Lemma submit_all_after_shutdown (ids : list string) (s : OState W) :
  o_pool_down W s = true -> args_unpackable (o_mgr W s) ->
  existsb (submittable (o_mgr W s)) ids = true ->
  submit_all W call_func ids s
  = (Raise "RuntimeError" "cannot schedule new futures after shutdown", s).
Proof.
  intros Hdown Hargs. induction ids as [|tid rest IH]; simpl; [discriminate|].
  intros Hex.
  unfold bind at 1, reg at 1, zoom at 1, get_task, gets. simpl.
  rewrite set_mgr_same.
  assert (Hv : dict_get tid (meta_view (o_mgr W s))
               = option_map metadata (dict_get tid (_tasks (o_mgr W s))))
    by apply dict_get_map.
  unfold submittable at 1 in Hex. rewrite Hv in Hex.
  destruct (dict_get tid (_tasks (o_mgr W s))) as [t|] eqn:Hg; simpl in Hex; [|exact (IH Hex)].
  destruct (py_truthy (meta_get "_task_func" PNone (metadata t))) eqn:Hf; simpl; [|exact (IH Hex)].
  destruct (args_unpackable_get (o_mgr W s) tid (metadata t) Hargs) as [[a Ha] [k Hk]];
    [rewrite Hv; reflexivity|].
  rewrite Ha, Hk. unfold pool_submit, bind, gets. simpl. rewrite Hdown. reflexivity.
Qed.

(** Extra: once [shutdown] has shut the thread pool down,
    [execute_tasks_parallel] on a list holding an id the submission loop
    submits (a known task with a truthy callable, the stored arguments of
    every task unpacking) raises [RuntimeError] from
    [ThreadPoolExecutor.submit]: no task runs and the state is left as
    it was. *)
Theorem execute_tasks_parallel_after_shutdown (s : OState W) (ids : list string)
  (Hargs : args_unpackable (o_mgr W s))
  (Hsub : existsb (submittable (o_mgr W s)) ids = true) :
  let s1 := snd (pool_shutdown W s) in
  execute_tasks_parallel W call_func ids s1
  = (Raise "RuntimeError" "cannot schedule new futures after shutdown", s1).
Proof.
  intros s1. unfold execute_tasks_parallel, bind at 1.
  rewrite (submit_all_after_shutdown ids s1); [reflexivity|reflexivity|exact Hargs|exact Hsub].
Qed.

(** Extra: [execute_tasks_parallel] has no [finally] around its clean-up:
    when the stored arguments of a later task fail to unpack, the call
    raises that [TypeError] after the job of an earlier task has run, and
    the earlier task's future stays in [self._futures]. *)
Theorem execute_tasks_parallel_abort_leaves_future (s : OState W) (tid bad : string)
  (t b : TaskMetadata) (a : list PyVal) (k : list (string * PyVal)) (ty e : string)
  (Hopen : o_pool_down W s = false)
  (Ht : dict_get tid (_tasks (o_mgr W s)) = Some t)
  (Hf : py_truthy (meta_get "_task_func" PNone (metadata t)) = true)
  (Ha : unpack_args (meta_get "_task_args" (PTuple []) (metadata t)) = Ok a)
  (Hk : unpack_kwargs (meta_get "_task_kwargs" (PDict []) (metadata t)) = Ok k)
  (Hb : dict_get bad (_tasks (o_mgr W s)) = Some b)
  (Hbf : py_truthy (meta_get "_task_func" PNone (metadata b)) = true)
  (Hba : unpack_args (meta_get "_task_args" (PTuple []) (metadata b)) = Raise ty e) :
  exists o s',
    call_executor W call_func tid (meta_get "_task_func" PNone (metadata t)) a k s = (o, s') /\
    execute_tasks_parallel W call_func [tid; bad] s
    = (Raise ty e, set_futures W (dict_set tid o (o_futures W s)) s').
Proof.
  destruct (call_executor W call_func tid (meta_get "_task_func" PNone (metadata t)) a k s)
    as [o s'] eqn:Hjob.
  exists o, s'. split; [reflexivity|].
  pose proof (call_executor_keeps W call_func tid (meta_get "_task_func" PNone (metadata t)) a k s)
    as Hkeep.
  rewrite Hjob in Hkeep. simpl in Hkeep. destruct Hkeep as [Hm [Hfut _]].
  assert (Hb' : exists b', dict_get bad (_tasks (o_mgr W s')) = Some b' /\ metadata b' = metadata b).
  { pose proof (dict_get_map metadata bad (_tasks (o_mgr W s'))) as H1.
    pose proof (dict_get_map metadata bad (_tasks (o_mgr W s))) as H2.
    unfold meta_view in Hm. rewrite Hm, H2, Hb in H1. simpl in H1.
    destruct (dict_get bad (_tasks (o_mgr W s'))) as [b'|]; [|discriminate].
    injection H1 as H1. exists b'. auto. }
  destruct Hb' as [b' [Hg' Hmd']].
  assert (Hsub : submit_all W call_func [tid; bad] s
                 = (Raise ty e, set_futures W (dict_set tid o (o_futures W s)) s')).
  { cbn [submit_all].
    unfold bind at 1, reg at 1, zoom at 1, get_task at 1, gets at 1.
    cbn [fst snd]. rewrite set_mgr_same, Ht.
    cbn beta iota. rewrite Hf. cbn [negb]. rewrite Ha, Hk.
    unfold bind at 1, pool_submit, bind at 1, gets at 1. cbn [fst snd]. rewrite Hopen.
    unfold run_job. rewrite Hjob.
    unfold bind at 1, modify at 1. cbn [fst snd].
    unfold bind at 1, reg at 1, zoom at 1, get_task at 1, gets at 1.
    cbn [fst snd o_mgr set_futures]. rewrite Hg'.
    cbn beta iota. rewrite Hmd', Hbf. cbn [negb]. rewrite Hba. unfold raise.
    rewrite Hfut. reflexivity. }
  unfold execute_tasks_parallel, bind at 1. rewrite Hsub. reflexivity.
Qed.

(** Extra: a future left in [self._futures] under an id with no task
    behind it is reported by the next [execute_tasks_parallel] on that id:
    the loop submits nothing, the wait loop finds the old future and puts
    its result (or [None] when it raised) under the id, and the clean-up
    then drops it. *)
Theorem execute_tasks_parallel_reports_stale_future (s : OState W) (tid : string)
  (r : Exc PyVal)
  (Hunknown : dict_get tid (_tasks (o_mgr W s)) = None)
  (Hstale : dict_get tid (o_futures W s) = Some r) :
  execute_tasks_parallel W call_func [tid] s
  = (Ok [(tid, match r with Ok v => v | Raise _ _ => PNone end)],
     set_futures W (dict_pop tid (o_futures W s)) s).
Proof.
  unfold execute_tasks_parallel, bind at 1. simpl.
  unfold bind at 1, reg at 1, zoom at 1, get_task, gets. simpl.
  rewrite set_mgr_same, Hunknown. simpl.
  unfold ret, bind, gets, modify. simpl. rewrite Hstale.
  destruct r; reflexivity.
Qed.

End Futures.
End FuturesExtra.

Module ExtraInstances.
Import Signals Tasks Orchestrator OrchestratorSpec SpecSide Fixtures.

Lemma clear_history_then_emit_witness :
  (0 < _max_history (mkEmitter [] [mkSignal 0 AGENT_READY 0 "old" None [] None] 2))%Z /\
  (let em := mkEmitter [] [mkSignal 0 AGENT_READY 0 "old" None [] None] 2 in
   let signals := [mkSignal 1 TASK_STARTED 1 "a" None [] None;
                   mkSignal 2 TASK_COMPLETED 2 "a" None [] None;
                   mkSignal 3 TASK_STARTED 3 "b" None [] None] in
   let em1 := snd (clear_history em) in
   let em2 := snd (emit_all signals em1) in
   fst (clear_history em) = Ok tt /\
   (forall ft tf L, get_history ft tf L em1 = (Ok [], em1)) /\
   _subscribers em2 = _subscribers em /\
   _signal_history em2 = lastn (Z.to_nat (_max_history em)) signals).
Proof.
  split; [vm_compute; reflexivity|].
  apply (SignalsExtra.clear_history_then_emit
           (mkEmitter [] [mkSignal 0 AGENT_READY 0 "old" None [] None] 2)
           [mkSignal 1 TASK_STARTED 1 "a" None [] None;
            mkSignal 2 TASK_COMPLETED 2 "a" None [] None;
            mkSignal 3 TASK_STARTED 3 "b" None [] None]).
  vm_compute. reflexivity.
Defined.

Lemma create_task_records_child_witness :
  "p" <> "" /\
  dict_get "c" (_tasks (manager_of [bound_task "p" PENDING 0])) = None /\
  (let t := mkTask "c" "child" "" NORMAL PENDING None (Some "p") [] 3 None None None PNone
              SEQUENTIAL [] in
   let m' := snd (create_task "c" 3 "child" "" NORMAL None (Some "p") [] SEQUENTIAL []
                    (manager_of [bound_task "p" PENDING 0])) in
   exists l,
     get_children_tasks "p" (manager_of [bound_task "p" PENDING 0])
       = (Ok l, manager_of [bound_task "p" PENDING 0]) /\
     get_children_tasks "p" m' = (Ok (l ++ [t]), m')).
Proof.
  split; [discriminate|]. split; [reflexivity|].
  apply (TasksExtra.create_task_records_child "c" 3 "child" "" NORMAL None "p" [] SEQUENTIAL []
           (manager_of [bound_task "p" PENDING 0])).
  - discriminate.
  - reflexivity.
  - simpl. intros [].
Defined.

Lemma transition_event_recorded_witness :
  (0 < _max_history (_emitter (manager_of [bound_task "a" PENDING 0])))%Z /\
  (let m := manager_of [bound_task "a" PENDING 0] in
   let old := lastn (Z.to_nat (_max_history (_emitter m)) - 1) (_signal_history (_emitter m)) in
   (forall m', start_task "a" (Some "agent") 4 7 m = (Ok true, m') ->
      exists ev, _signal_history (_emitter m') = old ++ [ev] /\
        signal_type ev = TASK_STARTED /\ sp_task_id ev = "a" /\ timestamp ev = 4) /\
   (forall m', complete_task "a" (PInt 1) 4 7 m = (Ok true, m') ->
      exists ev, _signal_history (_emitter m') = old ++ [ev] /\
        signal_type ev = TASK_COMPLETED /\ sp_task_id ev = "a" /\ timestamp ev = 4 /\
        dict_get "result" (data ev) = Some (PInt 1)) /\
   (forall m', fail_task "a" "boom" 4 7 m = (Ok true, m') ->
      exists ev, _signal_history (_emitter m') = old ++ [ev] /\
        signal_type ev = TASK_FAILED /\ sp_task_id ev = "a" /\ timestamp ev = 4 /\
        sp_error ev = Some "boom")).
Proof.
  split; [vm_compute; reflexivity|].
  apply (TasksExtra.transition_event_recorded "a" (Some "agent") (PInt 1) "boom" 4 7
           (manager_of [bound_task "a" PENDING 0])).
  vm_compute. reflexivity.
Defined.

Lemma execute_completed_task_reruns_callable_witness :
  dict_get "a" (_tasks (o_mgr _ (state_of [bound_task "a" COMPLETED 0])))
    = Some (bound_task "a" COMPLETED 0) /\
  status (bound_task "a" COMPLETED 0) = COMPLETED /\
  executor_kwargs_clash [] = None /\
  execute_task _ log_call "a" (state_of [bound_task "a" COMPLETED 0])
    = (Ok (PInt 1), mkO _ (o_mgr _ (state_of [bound_task "a" COMPLETED 0])) ["A"] 2 [] false).
Proof.
  split; [reflexivity|]. split; [reflexivity|]. split; [reflexivity|].
  apply (OrchestratorExtra.execute_completed_task_reruns_callable (list string) log_call
           (state_of [bound_task "a" COMPLETED 0]) "a" (bound_task "a" COMPLETED 0)
           0 [] [] (PInt 1) ["A"]); reflexivity.
Defined.

Definition orphaned_group_state : OState (list string) :=
  mkO _ (mkManager [] SignalEmitter_init [("p", ["gone"])] []) [] 0 [] false.

Lemma execute_task_group_without_children_witness :
  dict_get "p" (_parent_to_children (o_mgr _ orphaned_group_state)) = Some ["gone"] /\
  execute_task_group _ log_call "p" PARALLEL orphaned_group_state = (Ok [], orphaned_group_state).
Proof.
  split; [reflexivity|].
  apply (OrchestratorExtra.execute_task_group_without_children (list string) log_call
           orphaned_group_state "p" PARALLEL).
  simpl. intros l c H Hc. injection H as <-. destruct Hc as [<-|[]]. reflexivity.
Defined.

Definition blocked_state : OState (list string) :=
  state_of [bound_task "a" FAILED 0;
            mkTask "b" "b" "" NORMAL PENDING None None ["a"] 0 None None None PNone
              SEQUENTIAL [("_task_func", PFunc 2); ("_task_args", PTuple []);
                          ("_task_kwargs", PDict [])]].

Lemma run_until_complete_idle_witness :
  fst (get_ready_tasks (o_mgr _ blocked_state)) = Ok [] /\
  fst (has_pending_tasks (o_mgr _ blocked_state)) = Ok true /\
  run_until_complete _ log_call 100 blocked_state = (Ok tt, blocked_state).
Proof.
  split; [vm_compute; reflexivity|]. split; [vm_compute; reflexivity|].
  apply (OrchestratorExtra.run_until_complete_idle (list string) log_call blocked_state 100).
  vm_compute. reflexivity.
Defined.

Definition two_pending_state : OState (list string) :=
  state_of [bound_task "a" PENDING 0; bound_task "b" PENDING 2].

Lemma run_until_complete_finishes_independent_tasks_witness :
  (1 <= 5)%Z /\
  NoDup (map fst (_tasks (o_mgr _ two_pending_state))) /\
  exists s', run_until_complete _ log_call 5 two_pending_state = (Ok tt, s') /\
    map fst (_tasks (o_mgr _ s')) = map fst (_tasks (o_mgr _ two_pending_state)) /\
    Forall (fun p => status (snd p) = COMPLETED) (_tasks (o_mgr _ s')) /\
    fst (has_pending_tasks (o_mgr _ s')) = Ok false.
Proof.
  assert (Hnd : NoDup (map fst (_tasks (o_mgr _ two_pending_state)))).
  { simpl. constructor; [simpl; intros [H|[]]; discriminate|].
    constructor; [intros []|constructor]. }
  split; [lia|]. split; [exact Hnd|].
  apply (ProgressExtra.run_until_complete_finishes_independent_tasks (list string) log_call
           two_pending_state 5).
  - lia.
  - exact Hnd.
  - repeat constructor.
  - apply Forall_forall. simpl. intros p [<-|[<-|[]]].
    + split; [reflexivity|]. split; [reflexivity|]. split; [reflexivity|].
      exists 0, [], []. split; [reflexivity|]. split; [reflexivity|]. split; [reflexivity|].
      split; [reflexivity|]. intros w. exists (PInt 1), (w ++ ["A"]). reflexivity.
    + split; [reflexivity|]. split; [reflexivity|]. split; [reflexivity|].
      exists 2, [], []. split; [reflexivity|]. split; [reflexivity|]. split; [reflexivity|].
      split; [reflexivity|]. intros w. exists (PInt 3), (w ++ ["C"]). reflexivity.
Defined.

Definition one_pending_state : OState (list string) :=
  state_of [bound_task "a" PENDING 0].

Lemma execute_tasks_parallel_after_shutdown_witness :
  args_unpackable (o_mgr _ one_pending_state) /\
  existsb (submittable (o_mgr _ one_pending_state)) ["a"] = true /\
  execute_tasks_parallel _ log_call ["a"] (snd (pool_shutdown _ one_pending_state))
  = (Raise "RuntimeError" "cannot schedule new futures after shutdown",
     snd (pool_shutdown _ one_pending_state)).
Proof.
  split; [reflexivity|]. split; [reflexivity|].
  apply (FuturesExtra.execute_tasks_parallel_after_shutdown (list string) log_call
           one_pending_state ["a"]); reflexivity.
Defined.

(** Task "b" stores a positional-argument value that is not iterable. *)
Definition bad_args_task : TaskMetadata :=
  mkTask "b" "b" "" NORMAL PENDING None None [] 0 None None None PNone SEQUENTIAL
    [("_task_func", PFunc 2); ("_task_args", PInt 5); ("_task_kwargs", PDict [])].

Definition abort_state : OState (list string) :=
  state_of [bound_task "a" PENDING 0; bad_args_task].

Lemma execute_tasks_parallel_abort_leaves_future_witness :
  o_pool_down _ abort_state = false /\
  dict_get "a" (_tasks (o_mgr _ abort_state)) = Some (bound_task "a" PENDING 0) /\
  dict_get "b" (_tasks (o_mgr _ abort_state)) = Some bad_args_task /\
  exists o s',
    call_executor _ log_call "a" (PFunc 0) [] [] abort_state = (o, s') /\
    execute_tasks_parallel _ log_call ["a"; "b"] abort_state
    = (Raise "TypeError" "argument after * must be an iterable",
       set_futures _ (dict_set "a" o (o_futures _ abort_state)) s').
Proof.
  split; [reflexivity|]. split; [reflexivity|]. split; [reflexivity|].
  apply (FuturesExtra.execute_tasks_parallel_abort_leaves_future (list string) log_call
           abort_state "a" "b" (bound_task "a" PENDING 0) bad_args_task [] []
           "TypeError" "argument after * must be an iterable"); reflexivity.
Defined.

(** The state after the aborted call above, once the shared registry has
    been emptied with [clear_tasks]: the future of "a" is still there. *)
Definition leaked_state : OState (list string) :=
  snd (reg _ clear_tasks (snd (execute_tasks_parallel _ log_call ["a"; "b"] abort_state))).

Lemma execute_tasks_parallel_reports_stale_future_witness :
  dict_get "a" (_tasks (o_mgr _ leaked_state)) = None /\
  dict_get "a" (o_futures _ leaked_state) = Some (Ok (PInt 1)) /\
  execute_tasks_parallel _ log_call ["a"] leaked_state
  = (Ok [("a", PInt 1)], set_futures _ (dict_pop "a" (o_futures _ leaked_state)) leaked_state).
Proof.
  split; [vm_compute; reflexivity|]. split; [vm_compute; reflexivity|].
  apply (FuturesExtra.execute_tasks_parallel_reports_stale_future (list string) log_call
           leaked_state "a" (Ok (PInt 1))); vm_compute; reflexivity.
Defined.

End ExtraInstances.
